(** * efuse: the Polyfuse circuit breaker

    A shallow embedding of the two variants of [polyfuse.go] found in the
    repository, and the properties of their decision path ([GetState]) and
    update path ([PushState]).

    - [StoreFuse] embeds the store-based variant (the file that declares
      [PolifuseStore], [DefaultPolyfuseStore] and [errorShift]).
    - [FuncFuse] embeds the function-field variant (src/polyfuse.go), whose
      settings carry [FetchDataFunc], [PushDataFunc], [GetStateFunc] and
      [UpdateDataFunc].

    Numeric model.  Go's [float64] is embedded as the real numbers [R]: the
    arithmetic of the source is read exactly, on finite values, without
    rounding, NaN or infinities (so [x / 0] is the total division of [R],
    not IEEE; the statements that depend on a division keep the divisor
    away from zero).  The [int] fields of the settings are embedded as [Z];
    the conversion [int(x)] is the truncation of [x] when that fits an
    int64 and the smallest int64 otherwise (see [int_of_float64]). *)

From Stdlib Require Import ZArith Reals Lra Lia String Zfloor.
From stdpp Require Import gmap.

(** ** float64 and int *)

Abbreviation float64 := R.

(** [float64(n)] for an [int] n. *)
Definition float64_of_int (n : Z) : float64 := IZR n.

(** The range of [int] (64 bits). *)
Definition minInt64 : Z := (- 2 ^ 63)%Z.
Definition maxInt64 : Z := (2 ^ 63 - 1)%Z.

(** [int(x)] for a [float64] x: the fraction is discarded (truncation
    toward zero).  When the truncated value does not fit an [int] the result
    depends on the implementation; it is taken as on amd64, where the
    conversion yields the smallest [int]. *)
Definition int_of_float64 (x : float64) : Z :=
  let t := if Rle_dec 0 x then Zfloor x else Zceil x in
  if (minInt64 <=? t)%Z && (t <=? maxInt64)%Z then t else minInt64.

(** The comparisons [x < y] and [x > y] on [float64], as booleans. *)
Definition fltb (x y : float64) : bool :=
  if Rlt_dec x y then true else false.

Definition fgtb (x y : float64) : bool :=
  if Rgt_dec x y then true else false.

(** [math.E] and [math.Pow]. *)
Definition math_E : float64 := exp 1.

Definition math_Pow (x y : float64) : float64 := Rpower x y.

(** ** time.Time and time.Duration

    An instant is the number of nanoseconds it lies after a fixed origin; a
    [Duration] is a count of nanoseconds held in an int64, and [Time.Sub]
    saturates at the two ends of that range. *)

Abbreviation Time := Z.
Abbreviation Duration := Z.

Definition minDuration : Duration := (- 2 ^ 63)%Z.
Definition maxDuration : Duration := (2 ^ 63 - 1)%Z.
Definition Second : Duration := 1000000000%Z.

Definition Sub (t u : Time) : Duration :=
  let d := (t - u)%Z in
  if (d <? minDuration)%Z then minDuration
  else if (maxDuration <? d)%Z then maxDuration
  else d.

(** [Duration.Seconds]: whole seconds plus the nanosecond remainder. *)
Definition Seconds (d : Duration) : float64 :=
  let sec := Z.quot d Second in
  let nsec := Z.rem d Second in
  (float64_of_int sec + float64_of_int nsec / 1000000000)%R.

(** ** Go values of type [error]: [None] is [nil]. *)

Definition error := string.

(** ** Computations

    A Go function that reads and writes program state [W] and may panic
    (nil dereference, call of a nil function value): [None] is the panic,
    [Some (a, w)] the normal return of [a] in state [w]. *)

Definition M (W A : Type) : Type := W -> option (A * W).

Definition ret {W A} (a : A) : M W A := fun w => Some (a, w).

Definition panic {W A} : M W A := fun _ => None.

Definition bind {W A B} (c : M W A) (k : A -> M W B) : M W B :=
  fun w => match c w with
           | Some (a, w') => k a w'
           | None => None
           end.

Notation "'let*' x := c 'in' k" := (bind c (fun x => k))
  (at level 10, x pattern, c at level 200, k at level 200).

(** * The store-based variant *)

Module StoreFuse.

(** [errorShift]: shift the error value to the appropriate scale and
    compare. *)
Definition errorShift (err req errRate span ramp : float64) : bool :=
  let currentRate := (err / req)%R in
  let sigmoidRate := (1 / (1 + math_Pow math_E (span * 12 / ramp - 6)))%R in
  let normaliseRate := (sigmoidRate * (1 - errRate) + errRate)%R in
  fgtb currentRate normaliseRate.

Record PolyfuseData : Type := mkData {
  Request : float64;
  Error : float64;
  Timestamp : Time
}.

(** A [*PolyfuseData]: [None] is the nil pointer. *)
Abbreviation loc := positive.
Abbreviation ptr := (option loc).

Section WithCollaborators.

(** The state of the pluggable collaborators (a custom store, a custom
    update function), of which the fuse knows nothing. *)
Variable E : Type.

(** Program state: the [PolyfuseData] objects that pointers refer to, the
    instant [time.Now()] returns, and the collaborators' state. *)
Record World : Type := mkWorld {
  heap : gmap loc PolyfuseData;
  clock : Time;
  ext : E
}.

Definition set_heap (h : gmap loc PolyfuseData) (w : World) : World :=
  {| heap := h; clock := clock w; ext := ext w |}.

Definition set_clock (t : Time) (w : World) : World :=
  {| heap := heap w; clock := t; ext := ext w |}.

Abbreviation Go := (M World).

(** [time.Now()] *)
Definition Now : Go Time := fun w => Some (clock w, w).

(** [*p], and a field read [p.X]: a nil (or dangling) pointer panics. *)
Definition load (p : ptr) : Go PolyfuseData :=
  fun w => match p with
           | Some l => match heap w !! l with
                       | Some d => Some (d, w)
                       | None => None
                       end
           | None => None
           end.

(** A field write [p.X = v], given as the update [upd] of the object. *)
Definition modify (p : ptr) (upd : PolyfuseData -> PolyfuseData) : Go unit :=
  fun w => match p with
           | Some l => match heap w !! l with
                       | Some d => Some (tt, set_heap (<[l := upd d]> (heap w)) w)
                       | None => None
                       end
           | None => None
           end.

Definition set_Request (v : float64) (d : PolyfuseData) : PolyfuseData :=
  {| Request := v; Error := Error d; Timestamp := Timestamp d |}.
Definition set_Error (v : float64) (d : PolyfuseData) : PolyfuseData :=
  {| Request := Request d; Error := v; Timestamp := Timestamp d |}.
Definition set_Timestamp (v : Time) (d : PolyfuseData) : PolyfuseData :=
  {| Request := Request d; Error := Error d; Timestamp := v |}.

(** [&PolyfuseData{...}]: a new object. *)
Definition alloc (d : PolyfuseData) : Go ptr :=
  fun w => let l := fresh (dom (heap w)) in
           Some (Some l, set_heap (<[l := d]> (heap w)) w).

(** The interface [PolifuseStore]. *)
Class PolifuseStore (S : Type) : Type := {
  FetchData : S -> Go (ptr * option error);
  PushData : S -> PolyfuseData -> Go (option error);
  Store_GetState : S -> PolyfuseData -> Go (bool * option error)
}.

Record DefaultPolyfuseStore : Type := { data : ptr }.

#[export] Instance DefaultPolyfuseStore_PolifuseStore :
  PolifuseStore DefaultPolyfuseStore := {
  FetchData s := ret (data s, None);
  PushData s d :=
    let* _ := modify (data s) (set_Request (Request d)) in
    let* _ := modify (data s) (set_Error (Error d)) in
    let* _ := modify (data s) (set_Timestamp (Timestamp d)) in
    ret None;
  Store_GetState _ _ := ret (false, None)
}.

(** A value of interface type [PolifuseStore]: a receiver together with
    its method table. *)
Record StoreValue : Type := mkStore {
  store_type : Type;
  store_methods : PolifuseStore store_type;
  store_recv : store_type
}.

Definition fetch (s : StoreValue) : Go (ptr * option error) :=
  @FetchData _ (store_methods s) (store_recv s).

Definition push (s : StoreValue) (d : PolyfuseData) : Go (option error) :=
  @PushData _ (store_methods s) (store_recv s) d.

(** [PolyfuseSettings]; a nil [UpdateDataFunc] is [None]. *)
Record PolyfuseSettings : Type := mkSettings {
  ID : string;
  Rampframe : Z;
  Timeframe : Z;
  MaxRequest : Z;
  MaxError : Z;
  ErrorRate : Z;
  MultiLock : bool;
  UpdateDataFunc : option (bool -> ptr -> Go (ptr * option error))
}.

(** The zero value of [PolyfuseSettings]. *)
Definition zeroSettings : PolyfuseSettings :=
  {| ID := EmptyString; Rampframe := 0; Timeframe := 0; MaxRequest := 0;
     MaxError := 0; ErrorRate := 0; MultiLock := false;
     UpdateDataFunc := None |}.

Record Polyfuse : Type := mkPolyfuse {
  reqPerSec : float64;
  errPerSec : float64;
  setting : PolyfuseSettings;
  store : StoreValue
}.

(** [GetID] *)
Definition GetID (f : Polyfuse) : string := ID (setting f).

(** The block "snap data" of [GetState]: from the fetched object and the
    instant read from the clock, the elapsed seconds and the two decayed
    counts [newReq] and [newErr]. *)
Definition GetState_snap (f : Polyfuse) (d : PolyfuseData) (now : Time)
  : float64 * float64 * float64 :=
  let distance := Sub now (Timestamp d) in
  let newReq := (Request d - Seconds distance * reqPerSec f)%R in
  let newReq := if fltb newReq 1 then 1%R else newReq in
  let newErr := (Error d - Seconds distance * errPerSec f)%R in
  let newErr := if fltb newErr 0 then 0%R else newErr in
  (newReq, newErr, Seconds distance).

(** [GetState] *)
Definition GetState (f : Polyfuse) : Go (bool * option error) :=
  let* (data, err) := fetch (store f) in
  match err with
  | Some e => ret (false, Some e)
  | None =>
      let* now := Now in
      let* d := load data in
      let '(newReq, newErr, span) := GetState_snap f d now in
      if (0 <? MaxRequest (setting f))%Z
         && (MaxRequest (setting f) <=? int_of_float64 newReq)%Z
      then ret (false, None)
      else if (0 <? MaxError (setting f))%Z
         && (MaxError (setting f) <=? int_of_float64 newErr)%Z
      then ret (false, None)
      else if (0 <? ErrorRate (setting f))%Z
         && errorShift newErr newReq
              (float64_of_int (ErrorRate (setting f)) / 10000)%R
              span
              (float64_of_int (Rampframe (setting f)))
      then ret (false, None)
      else
        let* d := load data in
        let* err := push (store f) d in
        ret (true, err)
  end.

(** [PushState] *)
Definition PushState (f : Polyfuse) (state : bool) : Go (option error) :=
  let* (data, err) := fetch (store f) in
  match err with
  | Some e => ret (Some e)
  | None =>
      match UpdateDataFunc (setting f) with
      | None => panic
      | Some update =>
          let* (data, err) := update state data in
          match err with
          | Some e => ret (Some e)
          | None =>
              let* d := load data in
              push (store f) d
          end
      end
  end.

(** [defaultPolyfuseUpdateData f]: the closure reads [f.reqPerSec] and
    [f.errPerSec] of the fuse it captures. *)
Definition defaultPolyfuseUpdateData (f : Polyfuse)
  : bool -> ptr -> Go (ptr * option error) :=
  fun state data =>
    let* now := Now in
    let* d := load data in
    let distance := Sub now (Timestamp d) in
    let newReq := (Request d - Seconds distance * reqPerSec f)%R in
    let newReq := if fltb newReq 0 then 0%R else newReq in
    let newReq := (newReq + 1)%R in
    let newErr := (Error d - Seconds distance * errPerSec f)%R in
    let newErr := if fltb newErr 0 then 0%R else newErr in
    let newErr := if negb state then (newErr + 1)%R else newErr in
    let* _ := modify data (set_Error newErr) in
    let* _ := modify data (set_Request newReq) in
    let* _ := modify data (set_Timestamp now) in
    ret (data, None).

(** [NewPolyfuse].  The parameter [setting] is a copy local to the call:
    the clamps and the default update function are assigned to that copy,
    and the returned fuse keeps the [setting] field it was declared with
    ([var f Polyfuse]), the zero value. *)
Definition NewPolyfuse (setting : PolyfuseSettings) : Go Polyfuse :=
  let* now := Now in
  let* p := alloc {| Request := 1; Error := 0; Timestamp := now |} in
  let f_store := mkStore DefaultPolyfuseStore DefaultPolyfuseStore_PolifuseStore {| data := p |} in
  let f_reqPerSec :=
    (float64_of_int (MaxRequest setting) / float64_of_int (Timeframe setting))%R in
  let f_errPerSec :=
    (float64_of_int (MaxError setting) / float64_of_int (Timeframe setting))%R in
  let f := {| reqPerSec := f_reqPerSec; errPerSec := f_errPerSec;
              setting := zeroSettings; store := f_store |} in
  let ErrorRate' := if (ErrorRate setting <? 0)%Z then 0%Z else ErrorRate setting in
  let ErrorRate' := if (10000 <? ErrorRate')%Z then 10000%Z else ErrorRate' in
  let Rampframe' := if (Rampframe setting <? 1)%Z then 1%Z else Rampframe setting in
  let UpdateDataFunc' :=
    match UpdateDataFunc setting with
    | None => Some (defaultPolyfuseUpdateData f)
    | Some u => Some u
    end in
  let setting :=
    {| ID := ID setting; Rampframe := Rampframe'; Timeframe := Timeframe setting;
       MaxRequest := MaxRequest setting; MaxError := MaxError setting;
       ErrorRate := ErrorRate'; MultiLock := MultiLock setting;
       UpdateDataFunc := UpdateDataFunc' |} in
  ret f.

End WithCollaborators.

Arguments heap {E} w.
Arguments clock {E} w.
Arguments ext {E} w.
Arguments mkWorld {E} heap clock ext.
Arguments set_heap {E} h w.
Arguments set_clock {E} t w.
Arguments Now {E}.
Arguments load {E} p.
Arguments modify {E} p upd.
Arguments alloc {E} d.
Arguments FetchData {E S _} s.
Arguments PushData {E S _} s d.
Arguments Store_GetState {E S _} s d.
Arguments mkStore {E} store_type {store_methods} store_recv.
Arguments store_type {E} s.
Arguments store_methods {E} s.
Arguments store_recv {E} s.
Arguments fetch {E} s.
Arguments push {E} s d.
Arguments mkSettings {E}.
Arguments ID {E} p.
Arguments Rampframe {E} p.
Arguments Timeframe {E} p.
Arguments MaxRequest {E} p.
Arguments MaxError {E} p.
Arguments ErrorRate {E} p.
Arguments MultiLock {E} p.
Arguments UpdateDataFunc {E} p.
Arguments zeroSettings {E}.
Arguments mkPolyfuse {E}.
Arguments reqPerSec {E} p.
Arguments errPerSec {E} p.
Arguments setting {E} p.
Arguments store {E} p.
Arguments GetID {E} f.
Arguments GetState_snap {E} f d now.
Arguments GetState {E} f.
Arguments PushState {E} f state.
Arguments defaultPolyfuseUpdateData {E} f.
Arguments NewPolyfuse {E} setting.

End StoreFuse.

(** * The function-field variant (src/polyfuse.go) *)

Module FuncFuse.

Record PolyfuseData : Type := mkData {
  Request : float64;
  Error : float64;
  Timestamp : Time
}.

Section WithCollaborators.

(** The state of user-supplied functions, of which the fuse knows
    nothing. *)
Variable E : Type.

(** Program state.  The field [data] of the fuse is the one part of it
    that is written after construction, through the pointer the default
    closures capture; it is kept here as [fuse_data], next to the instant
    [time.Now()] returns. *)
Record World : Type := mkWorld {
  fuse_data : PolyfuseData;
  clock : Time;
  ext : E
}.

Definition set_fuse_data (d : PolyfuseData) (w : World) : World :=
  {| fuse_data := d; clock := clock w; ext := ext w |}.

Abbreviation Go := (M World).

(** [time.Now()] *)
Definition Now : Go Time := fun w => Some (clock w, w).

(** [PolyfuseSettings]; a nil function field is [None]. *)
Record PolyfuseSettings : Type := mkSettings {
  ID : string;
  Timeframe : Z;
  MaxRequest : Z;
  MaxError : Z;
  ErrorRate : Z;
  MultiLock : bool;
  FetchDataFunc : option (Go (PolyfuseData * option error));
  PushDataFunc : option (PolyfuseData -> Go (option error));
  GetStateFunc : option (PolyfuseData -> Go (bool * option error));
  UpdateDataFunc : option (bool -> PolyfuseData -> Go (PolyfuseData * option error))
}.

(** The zero value of [PolyfuseSettings]. *)
Definition zeroSettings : PolyfuseSettings :=
  {| ID := EmptyString; Timeframe := 0; MaxRequest := 0; MaxError := 0;
     ErrorRate := 0; MultiLock := false;
     FetchDataFunc := None; PushDataFunc := None;
     GetStateFunc := None; UpdateDataFunc := None |}.

(** [Polyfuse], without its field [data] (see [World]) and without the
    mutex, which no function of the file locks. *)
Record Polyfuse : Type := mkPolyfuse {
  reqPerSec : float64;
  errPerSec : float64;
  setting : PolyfuseSettings
}.

(** Calling a function value: nil panics. *)
Definition call {A} (fn : option (Go A)) : Go A :=
  match fn with
  | Some g => g
  | None => panic
  end.

Definition call1 {A B} (fn : option (A -> Go B)) (a : A) : Go B :=
  match fn with
  | Some g => g a
  | None => panic
  end.

Definition call2 {A B C} (fn : option (A -> B -> Go C)) (a : A) (b : B) : Go C :=
  match fn with
  | Some g => g a b
  | None => panic
  end.

(** [GetID] *)
Definition GetID (f : Polyfuse) : string := ID (setting f).

(** [GetState] *)
Definition GetState (f : Polyfuse) : Go (bool * option error) :=
  let* (data, err) := call (FetchDataFunc (setting f)) in
  match err with
  | Some e => ret (false, Some e)
  | None => call1 (GetStateFunc (setting f)) data
  end.

(** [PushState] *)
Definition PushState (f : Polyfuse) (state : bool) : Go (option error) :=
  let* (data, err) := call (FetchDataFunc (setting f)) in
  match err with
  | Some e => ret (Some e)
  | None =>
      let* (data, err) := call2 (UpdateDataFunc (setting f)) state data in
      match err with
      | Some e => ret (Some e)
      | None => call1 (PushDataFunc (setting f)) data
      end
  end.

(** [defaultPolyfuseFetchData] *)
Definition defaultPolyfuseFetchData : Go (PolyfuseData * option error) :=
  fun w => Some ((fuse_data w, None), w).

(** [defaultPolyfusePushData] *)
Definition defaultPolyfusePushData : PolyfuseData -> Go (option error) :=
  fun data w => Some (None, set_fuse_data data w).

(** [defaultPolyfuseGetState f]: the closure reads the rates and the
    settings of the fuse it captures. *)
Definition defaultPolyfuseGetState (f : Polyfuse)
  : PolyfuseData -> Go (bool * option error) :=
  fun data =>
    let* now := Now in
    let distance := Sub now (Timestamp data) in
    let newReq := (Request data - Seconds distance * reqPerSec f)%R in
    let newReq := if fltb newReq 1 then 1%R else newReq in
    let newErr := (Error data - Seconds distance * errPerSec f)%R in
    let newErr := if fltb newErr 0 then 0%R else newErr in
    if (0 <? MaxRequest (setting f))%Z
       && (MaxRequest (setting f) <=? int_of_float64 newReq)%Z
    then ret (false, None)
    else if (0 <? MaxError (setting f))%Z
       && (MaxError (setting f) <=? int_of_float64 newErr)%Z
    then ret (false, None)
    else if (0 <? ErrorRate (setting f))%Z
       && (ErrorRate (setting f) <=? int_of_float64 (newErr / newReq * 10000)%R)%Z
    then ret (false, None)
    else
      let data := {| Request := newReq; Error := newErr; Timestamp := now |} in
      let* err := call1 (PushDataFunc (setting f)) data in
      ret (true, err).

(** [defaultPolyfuseUpdateData f]: the closure reads the rates of the fuse
    it captures; the snapshot is passed and returned by value. *)
Definition defaultPolyfuseUpdateData (f : Polyfuse)
  : bool -> PolyfuseData -> Go (PolyfuseData * option error) :=
  fun state data =>
    let* now := Now in
    let distance := Sub now (Timestamp data) in
    let newReq := (Request data - Seconds distance * reqPerSec f)%R in
    let newReq := if fltb newReq 0 then 0%R else newReq in
    let newReq := (newReq + 1)%R in
    let newErr := (Error data - Seconds distance * errPerSec f)%R in
    let newErr := if fltb newErr 0 then 0%R else newErr in
    let newErr := if negb state then (newErr + 1)%R else newErr in
    let data := {| Request := newReq; Error := newErr; Timestamp := now |} in
    ret (data, None).

(** [NewPolyfuse].  The parameter [setting] is a copy local to the call:
    the clamp of the error rate and the four default functions are assigned
    to that copy, and the returned fuse keeps the [setting] field it was
    declared with ([var f Polyfuse]), the zero value. *)
Definition NewPolyfuse (setting : PolyfuseSettings) : Go Polyfuse :=
  let* now := Now in
  let* _ := (fun w => Some (tt, set_fuse_data
                                  {| Request := 0; Error := 0; Timestamp := now |} w)) in
  let f := {| reqPerSec :=
                (float64_of_int (MaxRequest setting)
                 / float64_of_int (Timeframe setting))%R;
              errPerSec :=
                (float64_of_int (MaxError setting)
                 / float64_of_int (Timeframe setting))%R;
              setting := zeroSettings |} in
  let ErrorRate' := if (ErrorRate setting <? 0)%Z then 0%Z else ErrorRate setting in
  let ErrorRate' := if (10000 <? ErrorRate')%Z then 10000%Z else ErrorRate' in
  let store_missing :=
    match FetchDataFunc setting, PushDataFunc setting with
    | Some _, Some _ => false
    | _, _ => true
    end in
  let FetchDataFunc' :=
    if store_missing then Some defaultPolyfuseFetchData else FetchDataFunc setting in
  let PushDataFunc' :=
    if store_missing then Some defaultPolyfusePushData else PushDataFunc setting in
  let GetStateFunc' :=
    match GetStateFunc setting with
    | None => Some (defaultPolyfuseGetState f)
    | Some g => Some g
    end in
  let UpdateDataFunc' :=
    match UpdateDataFunc setting with
    | None => Some (defaultPolyfuseUpdateData f)
    | Some u => Some u
    end in
  let setting :=
    {| ID := ID setting; Timeframe := Timeframe setting;
       MaxRequest := MaxRequest setting; MaxError := MaxError setting;
       ErrorRate := ErrorRate'; MultiLock := MultiLock setting;
       FetchDataFunc := FetchDataFunc'; PushDataFunc := PushDataFunc';
       GetStateFunc := GetStateFunc'; UpdateDataFunc := UpdateDataFunc' |} in
  ret f.

End WithCollaborators.

Arguments fuse_data {E} w.
Arguments clock {E} w.
Arguments ext {E} w.
Arguments mkWorld {E} fuse_data clock ext.
Arguments set_fuse_data {E} d w.
Arguments Now {E}.
Arguments mkSettings {E}.
Arguments ID {E} p.
Arguments Timeframe {E} p.
Arguments MaxRequest {E} p.
Arguments MaxError {E} p.
Arguments ErrorRate {E} p.
Arguments MultiLock {E} p.
Arguments FetchDataFunc {E} p.
Arguments PushDataFunc {E} p.
Arguments GetStateFunc {E} p.
Arguments UpdateDataFunc {E} p.
Arguments zeroSettings {E}.
Arguments mkPolyfuse {E}.
Arguments reqPerSec {E} p.
Arguments errPerSec {E} p.
Arguments setting {E} p.
Arguments call {E A} fn.
Arguments call1 {E A B} fn a.
Arguments call2 {E A B C} fn a b.
Arguments GetID {E} f.
Arguments GetState {E} f.
Arguments PushState {E} f state.
Arguments defaultPolyfuseFetchData {E}.
Arguments defaultPolyfusePushData {E}.
Arguments defaultPolyfuseGetState {E} f.

Arguments defaultPolyfuseUpdateData {E} f.
Arguments NewPolyfuse {E} setting.

End FuncFuse.

(** * The specification's vocabulary *)

(** Decay of a count over [elapsed] seconds at [rate] per second, floored
    at [floor]. *)
Definition decay (floor count elapsed rate : R) : R :=
  Rmax floor (count - elapsed * rate)%R.

(** The dampening curve and the dampened threshold. *)
Definition sigmoid (span ramp : R) : R :=
  (1 / (1 + exp (span * 12 / ramp - 6)))%R.

Definition threshold (span ramp target_rate : R) : R :=
  (sigmoid span ramp * (1 - target_rate) + target_rate)%R.

(** The three trip conditions in their order, first match wins.  The
    error-rate condition of the variant at hand is [rate_fires]. *)
Definition request_trips (max_request : Z) (req : R) : Prop :=
  (0 < max_request)%Z /\ (IZR max_request <= req)%R.



(** The ceiling tests as the code computes them, through [int(x)], and the
    first match among them. *)
Definition int_reaches (max : Z) (x : R) : Prop :=
  (0 < max)%Z /\ (max <= int_of_float64 x)%Z.

Inductive decision (max_request max_error error_rate : Z) (req err : R)
  (rate_fires : Prop) : bool -> Prop :=
| stop_request :
    int_reaches max_request req ->
    decision max_request max_error error_rate req err rate_fires false
| stop_error :
    ~ int_reaches max_request req ->
    int_reaches max_error err ->
    decision max_request max_error error_rate req err rate_fires false
| stop_rate :
    ~ int_reaches max_request req ->
    ~ int_reaches max_error err ->
    (0 < error_rate)%Z -> rate_fires ->
    decision max_request max_error error_rate req err rate_fires false
| go_on :
    ~ int_reaches max_request req ->
    ~ int_reaches max_error err ->
    ~ ((0 < error_rate)%Z /\ rate_fires) ->
    decision max_request max_error error_rate req err rate_fires true.

(** The snapshot an outcome report leaves: both counts decayed with the
    floor 0, one request added, one error added when the outcome [state] is
    a failure, stamped with the instant of the report. *)
Definition report_outcome (req_per_sec err_per_sec : R) (state : bool)
  (d : StoreFuse.PolyfuseData) (now : Time) : StoreFuse.PolyfuseData :=
  let elapsed := Seconds (Sub now (StoreFuse.Timestamp d)) in
  {| StoreFuse.Request :=
       (decay 0 (StoreFuse.Request d) elapsed req_per_sec + 1)%R;
     StoreFuse.Error :=
       (decay 0 (StoreFuse.Error d) elapsed err_per_sec
        + (if state then 0 else 1))%R;
     StoreFuse.Timestamp := now |}.

(** The update function installed in [f] behaves as the default one
    closed over [f] itself. *)
Definition default_update_installed {E : Type} (f : StoreFuse.Polyfuse E) : Prop :=
  exists u, StoreFuse.UpdateDataFunc (StoreFuse.setting f) = Some u
            /\ forall state q w,
                 u state q w = StoreFuse.defaultPolyfuseUpdateData f state q w.



(** The function-field fuse [f] has the default fetch and push installed,
    and a decision function and an update function that behave as the
    default ones closed over [f] itself. *)
Definition defaults_installed {E : Type} (f : FuncFuse.Polyfuse E) : Prop :=
  FuncFuse.FetchDataFunc (FuncFuse.setting f)
  = Some FuncFuse.defaultPolyfuseFetchData
  /\ FuncFuse.PushDataFunc (FuncFuse.setting f)
     = Some FuncFuse.defaultPolyfusePushData
  /\ (exists g, FuncFuse.GetStateFunc (FuncFuse.setting f) = Some g
                /\ forall data w,
                     g data w = FuncFuse.defaultPolyfuseGetState f data w)
  /\ (exists u, FuncFuse.UpdateDataFunc (FuncFuse.setting f) = Some u
                /\ forall state data w,
                     u state data w
                     = FuncFuse.defaultPolyfuseUpdateData f state data w).

(** * Sample fuses, stores and states *)

Module Samples.
Import StoreFuse.

(** A state whose only object, at address [cell], is [d]. *)
Definition cell : loc := 1%positive.

Definition world_of (d : PolyfuseData) (now : Time) : World unit :=
  mkWorld {[cell := d]} now tt.

Definition empty_world (now : Time) : World unit := mkWorld ∅ now tt.

Definition default_store : StoreValue unit :=
  mkStore DefaultPolyfuseStore {| data := Some cell |}.

Definition limits (id : string) (ramp timeframe max_request max_error error_rate : Z)
  : PolyfuseSettings unit :=
  {| ID := id; Rampframe := ramp; Timeframe := timeframe;
     MaxRequest := max_request; MaxError := max_error;
     ErrorRate := error_rate; MultiLock := false; UpdateDataFunc := None |}.

Definition fuse_of (s : PolyfuseSettings unit) (st : StoreValue unit)
  : Polyfuse unit :=
  {| reqPerSec := (IZR (MaxRequest s) / IZR (Timeframe s))%R;
     errPerSec := (IZR (MaxError s) / IZR (Timeframe s))%R;
     setting := s; store := st |}.

(** The fuse [f] with the default update function, closed over [f],
    installed in its settings. *)
Definition install_default_update (f : Polyfuse unit) : Polyfuse unit :=
  {| reqPerSec := reqPerSec f; errPerSec := errPerSec f;
     setting :=
       {| ID := ID (setting f); Rampframe := Rampframe (setting f);
          Timeframe := Timeframe (setting f);
          MaxRequest := MaxRequest (setting f);
          MaxError := MaxError (setting f);
          ErrorRate := ErrorRate (setting f);
          MultiLock := MultiLock (setting f);
          UpdateDataFunc := Some (defaultPolyfuseUpdateData f) |};
     store := store f |}.

(** A store that cannot be reached: fetch and push both fail. *)
Record UnavailableStore : Type := { reason : error }.

#[export] Instance UnavailableStore_PolifuseStore :
  PolifuseStore unit UnavailableStore := {
  FetchData s := ret (None, Some (reason s));
  PushData s _ := ret (Some (reason s));
  Store_GetState s _ := ret (false, Some (reason s))
}.

Definition unavailable_store : StoreValue unit :=
  mkStore UnavailableStore {| reason := "store unavailable"%string |}.

(** A store that hands out the object at [cell] and refuses every push. *)
Record ReadOnlyStore : Type := { refusal : error }.

#[export] Instance ReadOnlyStore_PolifuseStore :
  PolifuseStore unit ReadOnlyStore := {
  FetchData _ := ret (Some cell, None);
  PushData s _ := ret (Some (refusal s));
  Store_GetState _ _ := ret (false, None)
}.

Definition read_only_store : StoreValue unit :=
  mkStore ReadOnlyStore {| refusal := "read-only store"%string |}.


(** Two errors against one request, stamped with the instant 7, and the
    state that holds it at that same instant. *)
Definition burst : PolyfuseData :=
  {| Request := 1; Error := 2; Timestamp := 7 |}.


(** One error against ten requests, stamped with the instant 7. *)
Definition calm : PolyfuseData :=
  {| Request := 10; Error := 1; Timestamp := 7 |}.

(** A fuse over the default store whose update function refuses every
    report. *)
Definition picky_fuse : Polyfuse unit :=
  {| reqPerSec := 1; errPerSec := 1;
     setting :=
       {| ID := "picky"; Rampframe := 5; Timeframe := 10; MaxRequest := 10;
          MaxError := 10; ErrorRate := 100; MultiLock := false;
          UpdateDataFunc :=
            Some (fun _ q => ret (q, Some "update refused"%string)) |};
     store := default_store |}.






(** A snapshot with negative counts. *)
Definition negative : PolyfuseData :=
  {| Request := -5; Error := -3; Timestamp := 7 |}.




(** A fuse with no limit at all, over each of the three stores. *)
Definition open_fuse (st : StoreValue unit) : Polyfuse unit :=
  fuse_of (limits "sample" 5 10 0 0 0) st.

(** The function-field variant: a state holding the snapshot [d]. *)
Definition func_world_of (d : FuncFuse.PolyfuseData) (now : Time)
  : FuncFuse.World unit :=
  FuncFuse.mkWorld d now tt.

(** The function-field fuse with the given limits and the four default
    functions installed; the decision and update closures are taken over
    the fuse that already holds the limits and the default push. *)
Definition func_limits (max_request max_error error_rate : Z)
  : FuncFuse.PolyfuseSettings unit :=
  {| FuncFuse.ID := "sample"; FuncFuse.Timeframe := 10;
     FuncFuse.MaxRequest := max_request; FuncFuse.MaxError := max_error;
     FuncFuse.ErrorRate := error_rate; FuncFuse.MultiLock := false;
     FuncFuse.FetchDataFunc := Some FuncFuse.defaultPolyfuseFetchData;
     FuncFuse.PushDataFunc := Some FuncFuse.defaultPolyfusePushData;
     FuncFuse.GetStateFunc := None; FuncFuse.UpdateDataFunc := None |}.

Definition func_bare (max_request max_error error_rate : Z)
  : FuncFuse.Polyfuse unit :=
  {| FuncFuse.reqPerSec := (IZR max_request / 10)%R;
     FuncFuse.errPerSec := (IZR max_error / 10)%R;
     FuncFuse.setting := func_limits max_request max_error error_rate |}.

Definition func_fuse (max_request max_error error_rate : Z)
  : FuncFuse.Polyfuse unit :=
  let bare := func_bare max_request max_error error_rate in
  {| FuncFuse.reqPerSec := FuncFuse.reqPerSec bare;
     FuncFuse.errPerSec := FuncFuse.errPerSec bare;
     FuncFuse.setting :=
       {| FuncFuse.ID := "sample"; FuncFuse.Timeframe := 10;
          FuncFuse.MaxRequest := max_request; FuncFuse.MaxError := max_error;
          FuncFuse.ErrorRate := error_rate; FuncFuse.MultiLock := false;
          FuncFuse.FetchDataFunc := Some FuncFuse.defaultPolyfuseFetchData;
          FuncFuse.PushDataFunc := Some FuncFuse.defaultPolyfusePushData;
          FuncFuse.GetStateFunc := Some (FuncFuse.defaultPolyfuseGetState bare);
          FuncFuse.UpdateDataFunc :=
            Some (FuncFuse.defaultPolyfuseUpdateData bare) |} |}.

Definition func_calm : FuncFuse.PolyfuseData :=
  {| FuncFuse.Request := 10; FuncFuse.Error := 1; FuncFuse.Timestamp := 7 |}.

(** Function-field fuses with the given fetch and update functions and
    nothing else. *)
Definition func_custom
  (fetch_fn : option (M (FuncFuse.World unit)
                        (FuncFuse.PolyfuseData * option error)))
  (update_fn : option (bool -> FuncFuse.PolyfuseData ->
                       M (FuncFuse.World unit)
                         (FuncFuse.PolyfuseData * option error)))
  : FuncFuse.Polyfuse unit :=
  {| FuncFuse.reqPerSec := 1; FuncFuse.errPerSec := 1;
     FuncFuse.setting :=
       {| FuncFuse.ID := "custom"; FuncFuse.Timeframe := 10;
          FuncFuse.MaxRequest := 10; FuncFuse.MaxError := 10;
          FuncFuse.ErrorRate := 0; FuncFuse.MultiLock := false;
          FuncFuse.FetchDataFunc := fetch_fn;
          FuncFuse.PushDataFunc := None;
          FuncFuse.GetStateFunc := None;
          FuncFuse.UpdateDataFunc := update_fn |} |}.

Definition failing_fetch
  : M (FuncFuse.World unit) (FuncFuse.PolyfuseData * option error) :=
  ret (func_calm, Some "store unavailable"%string).

Definition refusing_update
  : bool -> FuncFuse.PolyfuseData ->
    M (FuncFuse.World unit) (FuncFuse.PolyfuseData * option error) :=
  fun _ data => ret (data, Some "update refused"%string).

End Samples.

(** ** Reading the numeric model *)

Section Numeric.
Local Open Scope R_scope.

Lemma fltb_true (x y : R) : fltb x y = true <-> x < y.
Proof. unfold fltb. destruct (Rlt_dec x y); split; intros; try easy. Qed.

Lemma fgtb_true (x y : R) : fgtb x y = true <-> x > y.
Proof. unfold fgtb. destruct (Rgt_dec x y); split; intros; try easy. Qed.

Lemma fgtb_false (x y : R) : fgtb x y = false <-> x <= y.
Proof.
  unfold fgtb. destruct (Rgt_dec x y); split; intros; try easy; lra.
Qed.

(** Flooring by a conditional assignment is [Rmax]. *)
Lemma floor_assign (lo x : R) : (if fltb x lo then lo else x) = Rmax lo x.
Proof.
  unfold fltb, Rmax.
  destruct (Rlt_dec x lo), (Rle_dec lo x); try lra; reflexivity.
Qed.

Lemma math_Pow_E (y : R) : math_Pow math_E y = exp y.
Proof.
  unfold math_Pow, math_E, Rpower. rewrite ln_exp. f_equal. lra.
Qed.

(** A positive integer bound is reached by the converted value exactly
    when it is reached by the value itself and the value is below 2^63. *)
Lemma int_bound_reached (m : Z) (x : R) :
  (0 < m)%Z ->
  ((m <= int_of_float64 x)%Z <-> IZR m <= x /\ x < IZR (2 ^ 63)).
Proof.
  intros Hm. unfold int_of_float64.
  assert (HmR : 0 < IZR m) by now apply IZR_lt.
  destruct (Rle_dec 0 x) as [Hx | Hx].
  - pose proof (Zfloor_bound x) as [Hlo Hhi].
    assert (H0 : (0 <= Zfloor x)%Z) by (apply Zfloor_lub; exact Hx).
    destruct ((minInt64 <=? Zfloor x)%Z && (Zfloor x <=? maxInt64)%Z) eqn:Hin.
    + apply andb_true_iff in Hin as [_ Hmax]. apply Z.leb_le in Hmax.
      split.
      * intros H. apply IZR_le in H. split; [lra |].
        assert (Hs : (Zfloor x + 1 <= 2 ^ 63)%Z) by (unfold maxInt64 in Hmax; lia).
        apply IZR_le in Hs. rewrite plus_IZR in Hs. lra.
      * intros [H _]. now apply Zfloor_lub.
    + split.
      * intros H. unfold minInt64 in H. lia.
      * intros [_ Hlt]. exfalso.
        assert (Hfit : (Zfloor x < 2 ^ 63)%Z) by (apply lt_IZR; lra).
        apply andb_false_iff in Hin as [Hin | Hin]; apply Z.leb_gt in Hin;
          unfold minInt64, maxInt64 in Hin; lia.
  - assert (Hneg : x < 0) by lra.
    assert (Hc : (Zceil x <= 0)%Z).
    { apply le_IZR. pose proof (Zceil_bound x).
      destruct (Z_le_gt_dec (Zceil x) 0) as [Hle | Hgt]; [now apply IZR_le |].
      assert (1 <= IZR (Zceil x)) by (apply IZR_le; lia). lra. }
    split.
    + intros H. exfalso.
      destruct ((minInt64 <=? Zceil x)%Z && (Zceil x <=? maxInt64)%Z);
        [lia | unfold minInt64 in H; lia].
    + intros [H _]. exfalso. lra.
Qed.

Lemma ceiling_check (m : Z) (x : R) :
  ((0 <? m)%Z && (m <=? int_of_float64 x)%Z = true) <-> int_reaches m x.
Proof.
  unfold int_reaches. rewrite andb_true_iff, Z.ltb_lt, Z.leb_le. reflexivity.
Qed.

(** The ceiling test of the code implies that the ceiling is reached, and
    is implied by it below 2^63. *)
Lemma int_reaches_trips (m : Z) (x : R) :
  int_reaches m x -> request_trips m x.
Proof.
  intros [Hm H]. apply (int_bound_reached m x Hm) in H as [H _]. now split.
Qed.

Lemma trips_int_reaches (m : Z) (x : R) :
  request_trips m x -> x < IZR (2 ^ 63) -> int_reaches m x.
Proof.
  intros [Hm H] Hfit. split; [exact Hm |].
  now apply (int_bound_reached m x Hm).
Qed.

Lemma not_trips_not_reaches (m : Z) (x : R) :
  ~ request_trips m x -> ~ int_reaches m x.
Proof. intros H Hr. apply H. now apply int_reaches_trips. Qed.

Lemma two63 : IZR (2 ^ 63) = 9223372036854775808.
Proof. reflexivity. Qed.

Lemma Sub_exact (t u : Time) :
  (minDuration <= t - u <= maxDuration)%Z -> Sub t u = (t - u)%Z.
Proof.
  intros [Hlo Hhi]. unfold Sub.
  destruct (Z.ltb_spec (t - u) minDuration); [lia |].
  destruct (Z.ltb_spec maxDuration (t - u)); [lia | reflexivity].
Qed.

Lemma Seconds_exact (d : Duration) : Seconds d = IZR d / 1000000000.
Proof.
  unfold Seconds, float64_of_int, Second.
  pose proof (Z.quot_rem' d 1000000000) as H.
  apply (f_equal IZR) in H. rewrite plus_IZR, mult_IZR in H.
  rewrite H. field.
Qed.

Lemma Seconds_0 : Seconds 0%Z = 0.
Proof. rewrite Seconds_exact. lra. Qed.

Lemma Sub_self (t : Time) : Sub t t = 0%Z.
Proof. rewrite Sub_exact; unfold minDuration, maxDuration; lia. Qed.

End Numeric.


(** * The dampened error-rate check *)

Section ErrorShift.
Import StoreFuse.
Local Open Scope R_scope.

Lemma sigmoid_bounds (span ramp : R) :
  0 < sigmoid span ramp /\ sigmoid span ramp < 1.
Proof.
  unfold sigmoid. set (e := exp (span * 12 / ramp - 6)).
  assert (He : 0 < e) by apply exp_pos.
  assert (Hinv : 0 < / (1 + e)) by (apply Rinv_0_lt_compat; lra).
  assert (Hone : / (1 + e) * (1 + e) = 1) by (apply Rinv_l; lra).
  unfold Rdiv. rewrite Rmult_1_l. split; [exact Hinv | nra].
Qed.

Lemma threshold_bounds (span ramp target_rate : R) :
  0 <= target_rate <= 1 ->
  target_rate <= threshold span ramp target_rate <= 1.
Proof.
  intros [H0 H1]. unfold threshold.
  destruct (sigmoid_bounds span ramp) as [Hs0 Hs1]. split; nra.
Qed.

(** What [errorShift] compares, in the specification's vocabulary. *)
Lemma errorShift_threshold (err req errRate span ramp : R) :
  errorShift err req errRate span ramp = true <->
  err / req > threshold span ramp errRate.
Proof.
  unfold errorShift. rewrite math_Pow_E, fgtb_true. reflexivity.
Qed.

Lemma errorShift_threshold_false (err req errRate span ramp : R) :
  errorShift err req errRate span ramp = false <->
  err / req <= threshold span ramp errRate.
Proof.
  unfold errorShift. rewrite math_Pow_E, fgtb_false. reflexivity.
Qed.

(** C10.  For every decayed request count [req >= 1], every target rate
    [errRate] in [0, 1], every [ramp >= 1] and every [span >= 0],
    [errorShift 0 req errRate span ramp] is [false]: with no decayed
    error, the error-rate condition does not fire. *)
Theorem errorShift_no_error (req errRate span ramp : R) :
  1 <= req -> 0 <= errRate <= 1 -> 1 <= ramp -> 0 <= span ->
  errorShift 0 req errRate span ramp = false.
Proof.
  intros Hreq Hrate Hramp Hspan.
  apply errorShift_threshold_false.
  pose proof (threshold_bounds span ramp errRate Hrate) as [Hlo _].
  unfold Rdiv. rewrite Rmult_0_l. lra.
Qed.

End ErrorShift.

(** * The decision path of the store-based variant *)

Section StoreDecision.
Import StoreFuse.
Context {E : Type}.
Implicit Types (f : Polyfuse E) (w : World E) (d : PolyfuseData).
Local Open Scope R_scope.

(** The decayed counts of the decision path, in the specification's
    vocabulary. *)
Lemma GetState_snap_decay f d (now : Time) :
  let elapsed := Seconds (Sub now (Timestamp d)) in
  GetState_snap f d now =
    (decay 1 (Request d) elapsed (reqPerSec f),
     decay 0 (Error d) elapsed (errPerSec f),
     elapsed).
Proof.
  intros elapsed. unfold GetState_snap, decay.
  rewrite !floor_assign. reflexivity.
Qed.

Lemma decay_floor (lo count elapsed rate : R) :
  lo <= decay lo count elapsed rate.
Proof. unfold decay. apply Rmax_l. Qed.

(** [GetState] once the store has handed out the object [d] at [p]: the
    boolean [b] follows the three tests of the code in their order, a deny
    returns in the state [w1] the fetch left, an allow pushes [d]. *)
Lemma StoreFuse_GetState_decides f w w1 (p : loc) d :
  fetch (store f) w = Some ((Some p, None), w1) ->
  heap w1 !! p = Some d ->
  let elapsed := Seconds (Sub (clock w1) (Timestamp d)) in
  let req := decay 1 (Request d) elapsed (reqPerSec f) in
  let err := decay 0 (Error d) elapsed (errPerSec f) in
  exists b : bool,
    decision (MaxRequest (setting f)) (MaxError (setting f))
      (ErrorRate (setting f)) req err
      (err / req >
         threshold elapsed (IZR (Rampframe (setting f)))
           (IZR (ErrorRate (setting f)) / 10000)) b
    /\ GetState f w =
         if b then (let* e := push (store f) d in ret (true, e)) w1
         else Some ((false, None), w1).
Proof.
  intros Hfetch Hd elapsed req err.
  unfold GetState, bind. rewrite Hfetch. unfold Now, load.
  rewrite Hd. rewrite GetState_snap_decay.
  fold elapsed req err.
  destruct ((0 <? MaxRequest (setting f))%Z
            && (MaxRequest (setting f) <=? int_of_float64 req)%Z) eqn:Hr.
  { exists false. split; [| reflexivity].
    apply stop_request. now apply ceiling_check. }
  assert (Hnr : ~ int_reaches (MaxRequest (setting f)) req).
  { intros H. apply ceiling_check in H. congruence. }
  destruct ((0 <? MaxError (setting f))%Z
            && (MaxError (setting f) <=? int_of_float64 err)%Z) eqn:He.
  { exists false. split; [| reflexivity].
    apply stop_error; [exact Hnr | now apply ceiling_check]. }
  assert (Hne : ~ int_reaches (MaxError (setting f)) err).
  { intros H. apply ceiling_check in H. congruence. }
  destruct ((0 <? ErrorRate (setting f))%Z
            && errorShift err req
                 (float64_of_int (ErrorRate (setting f)) / 10000) elapsed
                 (float64_of_int (Rampframe (setting f)))) eqn:Hs.
  { exists false. split; [| reflexivity].
    apply andb_true_iff in Hs as [Hpos Hshift].
    apply stop_rate; [exact Hnr | exact Hne | now apply Z.ltb_lt |].
    now apply errorShift_threshold in Hshift. }
  exists true. split.
  - apply go_on; [exact Hnr | exact Hne |].
    intros [Hpos Hfire]. apply Z.ltb_lt in Hpos.
    apply errorShift_threshold in Hfire.
    unfold float64_of_int in Hs. rewrite Hpos, Hfire in Hs. discriminate.
  - unfold bind, load. rewrite Hd. reflexivity.
Qed.

End StoreDecision.

(** * The decision closure of the function-field variant *)

Section FuncDecision.
Import FuncFuse.
Context {E : Type}.
Implicit Types (f : Polyfuse E) (w : World E) (data : PolyfuseData).
Local Open Scope R_scope.

(** [defaultPolyfuseGetState f] on the snapshot [data]: the boolean [b]
    follows the three tests of the code in their order, a deny leaves the
    state as it is, an allow pushes the decayed snapshot stamped with the
    instant of the call. *)
Lemma FuncFuse_GetState_decides f data w :
  let elapsed := Seconds (Sub (clock w) (Timestamp data)) in
  let req := decay 1 (Request data) elapsed (reqPerSec f) in
  let err := decay 0 (Error data) elapsed (errPerSec f) in
  exists b : bool,
    decision (MaxRequest (setting f)) (MaxError (setting f))
      (ErrorRate (setting f)) req err
      (ErrorRate (setting f) <= int_of_float64 (err / req * 10000))%Z b
    /\ defaultPolyfuseGetState f data w =
         if b then
           (let* e := call1 (PushDataFunc (setting f))
                        {| Request := req; Error := err;
                           Timestamp := clock w |} in
            ret (true, e)) w
         else Some ((false, None), w).
Proof.
  intros elapsed req err.
  unfold defaultPolyfuseGetState, bind at 1, Now.
  rewrite !floor_assign. fold elapsed. fold (decay 1 (Request data) elapsed (reqPerSec f)).
  fold (decay 0 (Error data) elapsed (errPerSec f)). fold req err.
  destruct ((0 <? MaxRequest (setting f))%Z
            && (MaxRequest (setting f) <=? int_of_float64 req)%Z) eqn:Hr.
  { exists false. split; [| reflexivity].
    apply stop_request. now apply ceiling_check. }
  assert (Hnr : ~ int_reaches (MaxRequest (setting f)) req).
  { intros H. apply ceiling_check in H. congruence. }
  destruct ((0 <? MaxError (setting f))%Z
            && (MaxError (setting f) <=? int_of_float64 err)%Z) eqn:He.
  { exists false. split; [| reflexivity].
    apply stop_error; [exact Hnr | now apply ceiling_check]. }
  assert (Hne : ~ int_reaches (MaxError (setting f)) err).
  { intros H. apply ceiling_check in H. congruence. }
  destruct ((0 <? ErrorRate (setting f))%Z
            && (ErrorRate (setting f) <=? int_of_float64 (err / req * 10000))%Z)
    eqn:Hs.
  { exists false. split; [| reflexivity].
    apply ceiling_check in Hs as [Hpos Hrate].
    now apply stop_rate. }
  exists true. split; [| reflexivity].
  apply go_on; [exact Hnr | exact Hne |].
  intros H. apply ceiling_check in H. congruence.
Qed.

End FuncDecision.

(** * The order of the trip conditions *)




(** * Objects, the default store and the update function *)

Section StoreUpdate.
Import StoreFuse.
Context {E : Type}.
Implicit Types (f : Polyfuse E) (w : World E) (d : PolyfuseData).
Local Open Scope R_scope.

Lemma set_heap_set_heap (h1 h2 : gmap loc PolyfuseData) w :
  set_heap h2 (set_heap h1 w) = set_heap h2 w.
Proof. reflexivity. Qed.

Lemma set_heap_same w : set_heap (heap w) w = w.
Proof. destruct w; reflexivity. Qed.

Lemma modify_at (p : loc) (upd : PolyfuseData -> PolyfuseData) w d :
  heap w !! p = Some d ->
  modify (Some p) upd w = Some (tt, set_heap (<[p := upd d]> (heap w)) w).
Proof. intros H. unfold modify. rewrite H. reflexivity. Qed.

(** Three field writes through one pointer leave the object with the
    three updates applied in turn. *)
Lemma modify3_at (p : loc) (u1 u2 u3 : PolyfuseData -> PolyfuseData)
      {A} (a : A) w d :
  heap w !! p = Some d ->
  (let* _ := modify (Some p) u1 in
   let* _ := modify (Some p) u2 in
   let* _ := modify (Some p) u3 in
   ret a) w
  = Some (a, set_heap (<[p := u3 (u2 (u1 d))]> (heap w)) w).
Proof.
  intros H. unfold bind.
  rewrite (modify_at p u1 w d H).
  rewrite (modify_at p u2 _ (u1 d)) by (cbn; apply lookup_insert_eq).
  rewrite (modify_at p u3 _ (u2 (u1 d))) by (cbn; apply lookup_insert_eq).
  cbn. rewrite !insert_insert_eq. reflexivity.
Qed.

(** [PushData] of the default store overwrites the object it points to. *)
Lemma default_push_at (p : loc) (new : PolyfuseData) w d :
  heap w !! p = Some d ->
  PushData {| data := Some p |} new w
  = Some (None, set_heap (<[p := new]> (heap w)) w).
Proof.
  intros H. cbn [PushData DefaultPolyfuseStore_PolifuseStore data].
  rewrite (modify3_at p _ _ _ None w d H). destruct new; reflexivity.
Qed.

(** Pushing to the default store the object it already holds changes
    nothing. *)
Lemma default_push_same (p : loc) w d :
  heap w !! p = Some d ->
  PushData {| data := Some p |} d w = Some (None, w).
Proof.
  intros H. rewrite (default_push_at p d w d H).
  rewrite insert_id by exact H. now rewrite set_heap_same.
Qed.

(** The default update function rewrites the object in place. *)
Lemma defaultPolyfuseUpdateData_at f (state : bool) (p : loc) w d :
  heap w !! p = Some d ->
  defaultPolyfuseUpdateData f state (Some p) w
  = Some ((Some p, None),
          set_heap
            (<[p := report_outcome (reqPerSec f) (errPerSec f) state d (clock w)]>
               (heap w)) w).
Proof.
  intros H. unfold defaultPolyfuseUpdateData, bind at 1 2, Now, load.
  rewrite H. rewrite (modify3_at p _ _ _ (Some p, None) w d H).
  rewrite !floor_assign. unfold report_outcome, decay.
  destruct state; cbn [negb]; repeat f_equal;
    unfold set_Timestamp, set_Request, set_Error; cbn; f_equal; lra.
Qed.

End StoreUpdate.

(** * Decay, outcome reports and store errors *)

Section StorePaths.
Import StoreFuse.
Context {E : Type}.
Implicit Types (f : Polyfuse E) (w : World E) (d : PolyfuseData).
Local Open Scope R_scope.

(** [NewPolyfuse] returns, with a fresh object in the default store and
    the two rates precomputed; its [setting] field is the zero value. *)
Lemma NewPolyfuse_returns (s : PolyfuseSettings E) w :
  let p := fresh (dom (heap w)) in
  let d0 := {| Request := 1; Error := 0; Timestamp := clock w |} in
  NewPolyfuse s w =
    Some ({| reqPerSec := IZR (MaxRequest s) / IZR (Timeframe s);
             errPerSec := IZR (MaxError s) / IZR (Timeframe s);
             setting := zeroSettings;
             store := mkStore DefaultPolyfuseStore {| data := Some p |} |},
          set_heap (<[p := d0]> (heap w)) w).
Proof. reflexivity. Qed.

Lemma PushState_default f (state : bool) w w1 (p : loc) d :
  fetch (store f) w = Some ((Some p, None), w1) ->
  heap w1 !! p = Some d ->
  default_update_installed f ->
  let d' := report_outcome (reqPerSec f) (errPerSec f) state d (clock w1) in
  PushState f state w =
    push (store f) d' (set_heap (<[p := d']> (heap w1)) w1).
Proof.
  intros Hfetch Hd [u [Hu Hext]] d'.
  unfold PushState, bind. rewrite Hfetch, Hu, Hext.
  rewrite (defaultPolyfuseUpdateData_at f state p w1 d Hd).
  fold d'. unfold load. cbn [heap set_heap].
  rewrite lookup_insert_eq. reflexivity.
Qed.

Lemma GetState_fetch_error f w w1 (q : ptr) (e : error) :
  fetch (store f) w = Some ((q, Some e), w1) ->
  GetState f w = Some ((false, Some e), w1).
Proof. intros H. unfold GetState, bind. rewrite H. reflexivity. Qed.

Lemma PushState_fetch_error f (state : bool) w w1 (q : ptr) (e : error) :
  fetch (store f) w = Some ((q, Some e), w1) ->
  PushState f state w = Some (Some e, w1).
Proof. intros H. unfold PushState, bind. rewrite H. reflexivity. Qed.




(** The default update function returns no error. *)
Lemma defaultPolyfuseUpdateData_no_error f (state : bool) (q q' : ptr)
      (err : option error) w w' :
  defaultPolyfuseUpdateData f state q w = Some ((q', err), w') -> err = None.
Proof.
  unfold defaultPolyfuseUpdateData, bind, Now. intros H.
  destruct (load q w) as [[d w0] |]; [| discriminate].
  repeat match type of H with
         | match modify ?p ?u ?v with _ => _ end = _ =>
             destruct (modify p u v) as [[[] ?] |]; [| discriminate]
         end.
  inversion H. reflexivity.
Qed.

(** [PushData] of the default store returns no error. *)
Lemma default_push_no_error (p : ptr) d w (e : error) w' :
  PushData {| data := p |} d w <> Some (Some e, w').
Proof.
  cbn [PushData DefaultPolyfuseStore_PolifuseStore data]. unfold bind. intros H.
  repeat match type of H with
         | match modify ?p ?u ?v with _ => _ end = _ =>
             destruct (modify p u v) as [[[] ?] |]; [| discriminate]
         end.
  discriminate.
Qed.

(** C7, as the code has it.  A failed fetch makes [GetState] return [false]
    with that very error and [PushState] return it, in the state the fetch
    left and with no push.  An error returned by [GetState] is the one the
    fetch gave or the one the single push gave.  An error returned by
    [PushState] is the one the fetch gave, the one the configured update
    function gave, or the one the single push gave; the default update
    function gives none. *)
Theorem store_errors_propagate :
  (forall f w w1 (q : ptr) (e : error),
      fetch (store f) w = Some ((q, Some e), w1) ->
      GetState f w = Some ((false, Some e), w1))
  /\ (forall f (state : bool) w w1 (q : ptr) (e : error),
         fetch (store f) w = Some ((q, Some e), w1) ->
         PushState f state w = Some (Some e, w1))
  /\ (forall f w w' (b : bool) (e : error),
         GetState f w = Some ((b, Some e), w') ->
         (b = false /\ exists q, fetch (store f) w = Some ((q, Some e), w'))
         \/ (b = true /\ exists (p : loc) d w1,
                fetch (store f) w = Some ((Some p, None), w1)
                /\ heap w1 !! p = Some d
                /\ push (store f) d w1 = Some (Some e, w')))
  /\ (forall f (state : bool) w w' (e : error),
         PushState f state w = Some (Some e, w') ->
         (exists q, fetch (store f) w = Some ((q, Some e), w'))
         \/ (exists (q : ptr) w1 update,
                fetch (store f) w = Some ((q, None), w1)
                /\ UpdateDataFunc (setting f) = Some update
                /\ ((exists q', update state q w1 = Some ((q', Some e), w'))
                    \/ (exists (q' : ptr) w2 d,
                           update state q w1 = Some ((q', None), w2)
                           /\ load q' w2 = Some (d, w2)
                           /\ push (store f) d w2 = Some (Some e, w')))))
  /\ (forall f (state : bool) (q q' : ptr) (err : option error) w w',
         defaultPolyfuseUpdateData f state q w = Some ((q', err), w') ->
         err = None).
Proof.
  split; [| split; [| split; [| split]]].
  - intros f w w1 q e. apply GetState_fetch_error.
  - intros f state w w1 q e. apply PushState_fetch_error.
  - intros f w w' b e Hrun.
    destruct (fetch (store f) w) as [[[q [e0 |]] w1] |] eqn:Hfetch.
    + rewrite (GetState_fetch_error f w w1 q e0 Hfetch) in Hrun.
      inversion Hrun; subst. left. split; [reflexivity | now exists q].
    + destruct q as [p |].
      * destruct (heap w1 !! p) as [d |] eqn:Hd.
        -- destruct (StoreFuse_GetState_decides f w w1 p d Hfetch Hd)
             as [b0 [_ Heq]].
           rewrite Heq in Hrun. destruct b0; [| discriminate].
           unfold bind in Hrun.
           destruct (push (store f) d w1) as [[e1 w2] |] eqn:Hpush;
             [| discriminate].
           inversion Hrun; subst.
           right. split; [reflexivity |]. now exists p, d, w1.
        -- unfold GetState, bind in Hrun. rewrite Hfetch in Hrun.
           unfold Now, load in Hrun. rewrite Hd in Hrun. discriminate.
      * unfold GetState, bind in Hrun. rewrite Hfetch in Hrun.
        discriminate.
    + unfold GetState, bind in Hrun. rewrite Hfetch in Hrun. discriminate.
  - intros f state w w' e Hrun.
    destruct (fetch (store f) w) as [[[q [e0 |]] w1] |] eqn:Hfetch.
    + rewrite (PushState_fetch_error f state w w1 q e0 Hfetch) in Hrun.
      inversion Hrun; subst. left. now exists q.
    + unfold PushState, bind in Hrun. rewrite Hfetch in Hrun.
      destruct (UpdateDataFunc (setting f)) as [update |] eqn:Hu;
        [| discriminate].
      right. exists q, w1, update. split; [reflexivity |]. split; [reflexivity |].
      destruct (update state q w1) as [[[q' [e1 |]] w2] |] eqn:Hupd;
        [| | discriminate].
      * inversion Hrun; subst. left. now exists q'.
      * right. destruct (load q' w2) as [[d w3] |] eqn:Hload; [| discriminate].
        assert (w3 = w2) as ->.
        { unfold load in Hload. destruct q' as [l |]; [| discriminate].
          destruct (heap w2 !! l); [| discriminate]. now inversion Hload. }
        now exists q', w2, d.
    + unfold PushState, bind in Hrun. rewrite Hfetch in Hrun. discriminate.
  - intros f state q q' err w w'. apply defaultPolyfuseUpdateData_no_error.
Qed.

End StorePaths.

(** * Non-negative counts, the error-rate condition, the default store *)

Section StoreInvariants.
Import StoreFuse.
Context {E : Type}.
Implicit Types (f : Polyfuse E) (w : World E) (d : PolyfuseData).
Local Open Scope R_scope.

Lemma report_outcome_nonneg (rps eps : R) (state : bool) d (now : Time) :
  1 <= Request (report_outcome rps eps state d now)
  /\ 0 <= Error (report_outcome rps eps state d now).
Proof.
  unfold report_outcome. cbn [Request Error].
  pose proof (decay_floor 0 (Request d) (Seconds (Sub now (Timestamp d))) rps).
  pose proof (decay_floor 0 (Error d) (Seconds (Sub now (Timestamp d))) eps).
  destruct state; split; lra.
Qed.

(** On finite counts and rates, the counts the decision path decays to
    are non-negative (the request count is at least 1), and so are the
    counts of the snapshot the update path writes and [PushState] pushes
    (the request count is at least 1 there too); in the function-field
    variant so are the counts of the snapshot an allow pushes; whatever the
    signs of the stored counts and whatever the instant.  What the
    store-based [GetState] pushes on an allow is not among them: it is the
    object as fetched (see [StoreFuse_GetState_decides]). *)
Lemma decayed_counts_nonnegative :
  (forall f d (now : Time),
      0 <= fst (fst (GetState_snap f d now))
      /\ 0 <= snd (fst (GetState_snap f d now)))
  /\ (forall f (state : bool) (p : loc) w d,
         heap w !! p = Some d ->
         exists d' w',
           defaultPolyfuseUpdateData f state (Some p) w
           = Some ((Some p, None), w')
           /\ heap w' !! p = Some d'
           /\ 0 <= Request d' /\ 0 <= Error d')
  /\ (forall f (state : bool) w w1 (p : loc) d,
         fetch (store f) w = Some ((Some p, None), w1) ->
         heap w1 !! p = Some d ->
         default_update_installed f ->
         exists d' w1',
           PushState f state w = push (store f) d' w1'
           /\ 0 <= Request d' /\ 0 <= Error d')
  /\ (forall (g : FuncFuse.Polyfuse E) (data : FuncFuse.PolyfuseData)
             (v : FuncFuse.World E),
         exists (b : bool) (d' : FuncFuse.PolyfuseData),
           FuncFuse.defaultPolyfuseGetState g data v =
             (if b then
                (let* e := FuncFuse.call1
                             (FuncFuse.PushDataFunc (FuncFuse.setting g)) d' in
                 ret (true, e)) v
              else Some ((false, None), v))
           /\ 0 <= FuncFuse.Request d' /\ 0 <= FuncFuse.Error d').
Proof.
  split; [| split; [| split]].
  - intros f d now. rewrite GetState_snap_decay. cbn [fst snd].
    pose proof (decay_floor 1 (Request d) (Seconds (Sub now (Timestamp d)))
                  (reqPerSec f)).
    pose proof (decay_floor 0 (Error d) (Seconds (Sub now (Timestamp d)))
                  (errPerSec f)).
    split; lra.
  - intros f state p w d Hd.
    eexists. eexists. split; [apply (defaultPolyfuseUpdateData_at f state p w d Hd) |].
    split; [cbn [heap set_heap]; apply lookup_insert_eq |].
    destruct (report_outcome_nonneg (reqPerSec f) (errPerSec f) state d (clock w)).
    split; lra.
  - intros f state w w1 p d Hfetch Hd Hinst.
    eexists. eexists. split; [apply (PushState_default f state w w1 p d Hfetch Hd Hinst) |].
    destruct (report_outcome_nonneg (reqPerSec f) (errPerSec f) state d (clock w1)).
    split; lra.
  - intros g data v.
    destruct (FuncFuse_GetState_decides g data v) as [b [_ Hrun]].
    exists b. eexists. split; [exact Hrun |]. cbn [FuncFuse.Request FuncFuse.Error].
    pose proof (decay_floor 1 (FuncFuse.Request data)
                  (Seconds (Sub (FuncFuse.clock v) (FuncFuse.Timestamp data)))
                  (FuncFuse.reqPerSec g)).
    pose proof (decay_floor 0 (FuncFuse.Error data)
                  (Seconds (Sub (FuncFuse.clock v) (FuncFuse.Timestamp data)))
                  (FuncFuse.errPerSec g)).
    split; lra.
Qed.


(** With the default store, [GetState] leaves the state as it found it,
    on a deny and on an allow alike: what an allow pushes is the object
    the store already holds. *)
Lemma default_GetState_keeps_state f w (p : loc) d :
  store f = mkStore DefaultPolyfuseStore {| data := Some p |} ->
  heap w !! p = Some d ->
  exists b : bool, GetState f w = Some ((b, None), w).
Proof.
  intros Hstore Hd.
  assert (Hfetch : fetch (store f) w = Some ((Some p, None), w))
    by (rewrite Hstore; reflexivity).
  destruct (StoreFuse_GetState_decides f w w p d Hfetch Hd) as [b [_ Hrun]].
  exists b. rewrite Hrun. destruct b; [| reflexivity].
  unfold bind, push. rewrite Hstore. cbn [store_recv store_methods store_type].
  rewrite (default_push_same p w d Hd). reflexivity.
Qed.

End StoreInvariants.


(** * The error-rate condition at span zero, and disabled checks *)

Section StoreZeroSpan.
Import StoreFuse.
Context {E : Type}.
Implicit Types (f : Polyfuse E) (w : World E) (d : PolyfuseData).
Local Open Scope R_scope.

Lemma decay_at_zero (lo count rate : R) : decay lo count 0 rate = Rmax lo count.
Proof. unfold decay. f_equal. lra. Qed.


(** With the three checks disabled [GetState] allows, and pushes the object
    it fetched. *)
Lemma GetState_disabled_allows f w w1 (p : loc) d :
  fetch (store f) w = Some ((Some p, None), w1) ->
  heap w1 !! p = Some d ->
  (MaxRequest (setting f) <= 0)%Z ->
  (MaxError (setting f) <= 0)%Z ->
  (ErrorRate (setting f) <= 0)%Z ->
  GetState f w = (let* e := push (store f) d in ret (true, e)) w1.
Proof.
  intros Hfetch Hd Hr He Hs.
  destruct (StoreFuse_GetState_decides f w w1 p d Hfetch Hd) as [b [Hv Hrun]].
  rewrite Hrun.
  destruct Hv as [[H _] | _ [H _] | _ _ H _ | _ _ _]; try lia. reflexivity.
Qed.

(** With the default store on top, the state is left as it was. *)
Lemma default_GetState_disabled f w (p : loc) d :
  store f = mkStore DefaultPolyfuseStore {| data := Some p |} ->
  heap w !! p = Some d ->
  (MaxRequest (setting f) <= 0)%Z ->
  (MaxError (setting f) <= 0)%Z ->
  (ErrorRate (setting f) <= 0)%Z ->
  GetState f w = Some ((true, None), w).
Proof.
  intros Hstore Hd Hr He Hs.
  assert (Hfetch : fetch (store f) w = Some ((Some p, None), w))
    by (rewrite Hstore; reflexivity).
  rewrite (GetState_disabled_allows f w w p d Hfetch Hd Hr He Hs).
  unfold bind, push. rewrite Hstore. cbn [store_recv store_methods store_type].
  rewrite (default_push_same p w d Hd). reflexivity.
Qed.


End StoreZeroSpan.

(** * The constructor *)

Section Constructor.
Import StoreFuse Samples.
Local Open Scope R_scope.

Lemma NewPolyfuse_forgets_settings {E : Type} (s : PolyfuseSettings E)
      (w : World E) :
  exists f w', NewPolyfuse s w = Some (f, w') /\ setting f = zeroSettings.
Proof.
  eexists. eexists. split; [apply NewPolyfuse_returns | reflexivity].
Qed.

(** On the fuse [NewPolyfuse] returns, [PushState] calls a nil function:
    the settings it reads hold no update function. *)
Lemma NewPolyfuse_PushState_panics {E : Type} (s : PolyfuseSettings E)
      (w : World E) (state : bool) :
  exists f w', NewPolyfuse s w = Some (f, w')
               /\ forall w'' : World E, PushState f state w'' = None.
Proof.
  eexists. eexists. split; [apply NewPolyfuse_returns |].
  intros w''. reflexivity.
Qed.

(** C9, at a sample input.  The fuse built by [NewPolyfuse] from settings
    whose identity is ["payments"] answers [GetID] with the empty string:
    the settings never reach the fuse. *)
Theorem NewPolyfuse_GetID_empty :
  let s := limits "payments" 5 10 100 10 100 in
  exists f w',
    NewPolyfuse s (empty_world 0) = Some (f, w')
    /\ ID s = "payments"%string
    /\ GetID f = EmptyString.
Proof.
  intros s. eexists. eexists.
  split; [apply NewPolyfuse_returns |]. split; reflexivity.
Qed.

(** C4, at a sample input.  A fuse is built at instant 0 with
    [max_request = max_error = 10] over a timeframe of 10 s, and asked two
    seconds later: [GetState] allows, and the store still holds the snapshot
    of the construction, stamped 0; nothing decayed or restamped was
    written. *)
Theorem GetState_allow_keeps_fetched_snapshot :
  let s := limits "payments" 5 10 10 10 0 in
  let later : Time := 2000000000%Z in
  exists f (p : loc) w1,
    NewPolyfuse s (empty_world 0) = Some (f, w1)
    /\ store f = mkStore DefaultPolyfuseStore {| data := Some p |}
    /\ GetState f (set_clock later w1) = Some ((true, None), set_clock later w1)
    /\ heap (set_clock later w1) !! p
       = Some {| Request := 1; Error := 0; Timestamp := 0 |}
    /\ Seconds (Sub later 0) = 2.
Proof.
  intros s later. eexists. eexists. eexists.
  split; [apply NewPolyfuse_returns |].
  split; [reflexivity |].
  assert (Hd : heap (set_clock later
                       (set_heap
                          (<[fresh (dom (heap (empty_world 0))) :=
                               {| Request := 1; Error := 0; Timestamp := 0 |}]>
                             (heap (empty_world 0))) (empty_world 0)))
               !! fresh (dom (heap (empty_world 0)))
               = Some {| Request := 1; Error := 0; Timestamp := 0 |})
    by (cbn [heap set_clock set_heap]; apply lookup_insert_eq).
  split; [| split; [exact Hd |]].
  - eapply default_GetState_disabled;
      [reflexivity | exact Hd | cbn; lia | cbn; lia | cbn; lia].
  - rewrite Seconds_exact. unfold later.
    rewrite Sub_exact by (unfold minDuration, maxDuration; lia).
    replace (2000000000 - 0)%Z with 2000000000%Z by lia. lra.
Qed.

End Constructor.

(** * The claims at sample inputs *)

Section AtSamples.
Import StoreFuse Samples.
Local Open Scope R_scope.

Lemma world_of_holds (d : PolyfuseData) (now : Time) :
  heap (world_of d now) !! cell = Some d.
Proof. apply lookup_singleton_eq. Defined.






Lemma errorShift_no_error_witness : errorShift 0 4 (1 / 100) 3 5 = false.
Proof. apply (errorShift_no_error 4 (1 / 100) 3 5); lra. Defined.





End AtSamples.

(** * Outcome reports and store errors at sample inputs *)

Section ReportsAtSamples.
Import StoreFuse Samples.
Local Open Scope R_scope.

Lemma install_default_update_installed (f : Polyfuse unit) :
  default_update_installed (install_default_update f).
Proof.
  exists (defaultPolyfuseUpdateData f). split; [reflexivity |].
  intros state q w. reflexivity.
Defined.


Lemma read_only_GetState :
  GetState (open_fuse read_only_store) (world_of calm 9)
  = Some ((true, Some "read-only store"%string), world_of calm 9).
Proof.
  rewrite (GetState_disabled_allows (open_fuse read_only_store)
             (world_of calm 9) (world_of calm 9) cell calm
             eq_refl (world_of_holds calm 9)); [reflexivity | | |]; cbn; lia.
Defined.

Lemma read_only_PushState :
  exists w',
    PushState (install_default_update (open_fuse read_only_store)) true
      (world_of calm 9)
    = Some (Some "read-only store"%string, w').
Proof.
  eexists.
  rewrite (PushState_default
             (install_default_update (open_fuse read_only_store)) true
             (world_of calm 9) (world_of calm 9) cell calm
             eq_refl (world_of_holds calm 9)
             (install_default_update_installed (open_fuse read_only_store))).
  reflexivity.
Defined.

(** An update function that refuses every report, over the default store:
    the fetch succeeds, nothing is pushed, the store cannot fail, and
    [PushState] returns the refusal. *)
Lemma update_error_is_returned :
  fetch (store picky_fuse) (world_of calm 9)
  = Some ((Some cell, None), world_of calm 9)
  /\ (forall d w (e : error) w', push (store picky_fuse) d w <> Some (Some e, w'))
  /\ PushState picky_fuse true (world_of calm 9)
     = Some (Some "update refused"%string, world_of calm 9).
Proof.
  split; [reflexivity |]. split; [| reflexivity].
  intros d w e w'. apply default_push_no_error.
Qed.


(** C8, at a sample input.  The store holds a snapshot whose counts are
    negative, -5 requests and -3 errors, and the fuse has no limit set.
    [GetState], two seconds after the timestamp, computes the decayed
    counts 1 and 0 for its tests, allows, and pushes the snapshot as it
    fetched it: the counts written to the store are -5 and -3. *)
Theorem GetState_allow_writes_negative_counts :
  let f := open_fuse default_store in
  let w := world_of negative 2000000007 in
  fetch (store f) w = Some ((Some cell, None), w)
  /\ heap w !! cell = Some {| Request := -5; Error := -3; Timestamp := 7 |}
  /\ GetState_snap f negative (clock w) = (1, 0, 2)
  /\ GetState f w = (let* e := push (store f) negative in ret (true, e)) w
  /\ GetState f w = Some ((true, None), w)
  /\ Request negative < 0 /\ Error negative < 0.
Proof.
  intros f w.
  assert (Hd : heap w !! cell = Some negative) by apply world_of_holds.
  assert (Hrun : GetState f w
                 = (let* e := push (store f) negative in ret (true, e)) w).
  { apply (GetState_disabled_allows f w w cell negative eq_refl Hd);
      cbn; lia. }
  split; [reflexivity |]. split; [exact Hd |]. split; [| split; [exact Hrun |]].
  - rewrite GetState_snap_decay. unfold f, w.
    cbn [world_of clock negative Timestamp].
    rewrite Seconds_exact.
    rewrite Sub_exact by (unfold minDuration, maxDuration; lia).
    replace (2000000007 - 7)%Z with 2000000000%Z by lia.
    unfold decay. cbn [negative Request Error open_fuse fuse_of reqPerSec
                       errPerSec limits MaxRequest MaxError Timeframe].
    replace (IZR 2000000000 / 1000000000) with 2 by lra.
    rewrite !Rmax_left by lra. reflexivity.
  - split; [| cbn; lra].
    rewrite Hrun. unfold bind, push, f.
    cbn [open_fuse fuse_of store default_store store_recv store_methods
         store_type].
    rewrite (default_push_same cell w negative Hd). reflexivity.
Qed.

Lemma store_errors_propagate_witness :
  GetState (open_fuse unavailable_store) (empty_world 9)
  = Some ((false, Some "store unavailable"%string), empty_world 9)
  /\ PushState (open_fuse unavailable_store) true (empty_world 9)
     = Some (Some "store unavailable"%string, empty_world 9)
  /\ (exists d, push read_only_store d (world_of calm 9)
                = Some (Some "read-only store"%string, world_of calm 9))
  /\ (exists d w1 w',
         push read_only_store d w1 = Some (Some "read-only store"%string, w'))
  /\ (forall (q' : ptr) (err : option error) w',
         defaultPolyfuseUpdateData (open_fuse default_store) true (Some cell)
           (world_of calm 9) = Some ((q', err), w') -> err = None).
Proof.
  destruct (@store_errors_propagate unit)
    as [Hget [Hpush [Hget_only [Hpush_only Hdefault]]]].
  split; [| split; [| split; [| split]]].
  - apply (Hget (open_fuse unavailable_store) (empty_world 9) (empty_world 9) None).
    reflexivity.
  - apply (Hpush (open_fuse unavailable_store) true (empty_world 9)
             (empty_world 9) None).
    reflexivity.
  - destruct (Hget_only (open_fuse read_only_store) (world_of calm 9)
                (world_of calm 9) true "read-only store"%string
                read_only_GetState)
      as [[Hb _] | [_ [p [d [w1 [Hfetch [_ Hp]]]]]]]; [discriminate |].
    inversion Hfetch; subst. exists d. exact Hp.
  - destruct read_only_PushState as [w' Hrun].
    destruct (Hpush_only (install_default_update (open_fuse read_only_store))
                true (world_of calm 9) w' "read-only store"%string Hrun)
      as [[q Hfetch] | [q [w1 [u [_ [Hu [[q' Hupd] | [q' [w2 [d [_ [_ Hp]]]]]]]]]]]].
    + discriminate.
    + inversion Hu; subst.
      apply defaultPolyfuseUpdateData_no_error in Hupd. discriminate.
    + eexists. eexists. eexists. exact Hp.
  - intros q' err w'.
    apply (Hdefault (open_fuse default_store) true (Some cell) q' err).
Defined.

Lemma decayed_counts_nonnegative_at_sample :
  (exists d' w',
      defaultPolyfuseUpdateData (open_fuse default_store) false (Some cell)
        (world_of calm 9) = Some ((Some cell, None), w')
      /\ heap w' !! cell = Some d'
      /\ 0 <= Request d' /\ 0 <= Error d')
  /\ (exists d' w1',
         PushState (install_default_update (open_fuse default_store)) false
           (world_of calm 9) = push default_store d' w1'
         /\ 0 <= Request d' /\ 0 <= Error d').
Proof.
  destruct (@decayed_counts_nonnegative unit) as [_ [Hupd [Hpush _]]].
  split.
  - apply (Hupd (open_fuse default_store) false cell (world_of calm 9) calm).
    apply world_of_holds.
  - apply (Hpush (install_default_update (open_fuse default_store)) false
             (world_of calm 9) (world_of calm 9) cell calm
             eq_refl (world_of_holds calm 9)
             (install_default_update_installed (open_fuse default_store))).
Defined.

End ReportsAtSamples.


(** * More on the dampened error-rate check *)

Section ErrorShiftShape.
Import StoreFuse.
Local Open Scope R_scope.

Lemma ratio_le (err req rate : R) : 0 < req -> err <= rate * req -> err / req <= rate.
Proof.
  intros Hreq H. apply (Rmult_le_reg_r req); [exact Hreq |].
  unfold Rdiv. rewrite Rmult_assoc, Rinv_l by lra. lra.
Qed.

Lemma ratio_gt_1 (err req : R) : 0 < req -> req < err -> 1 < err / req.
Proof.
  intros Hreq H. apply (Rmult_lt_reg_r req); [exact Hreq |].
  unfold Rdiv. rewrite Rmult_assoc, Rinv_l by lra. lra.
Qed.

Lemma sigmoid_decreasing (span1 span2 ramp : R) :
  0 < ramp -> span1 <= span2 -> sigmoid span2 ramp <= sigmoid span1 ramp.
Proof.
  intros Hramp Hspan. unfold sigmoid.
  assert (Harg : span1 * 12 / ramp - 6 <= span2 * 12 / ramp - 6).
  { assert (0 < / ramp) by now apply Rinv_0_lt_compat.
    unfold Rdiv. nra. }
  assert (Hexp : exp (span1 * 12 / ramp - 6) <= exp (span2 * 12 / ramp - 6)).
  { destruct Harg as [Hlt | Heq];
      [left; now apply exp_increasing | right; now rewrite Heq]. }
  pose proof (exp_pos (span1 * 12 / ramp - 6)).
  unfold Rdiv. rewrite !Rmult_1_l.
  apply Rinv_le_contravar; lra.
Qed.

(** X1.  For a positive request count and a target rate within [0, 1]:
    [errorShift] does not fire while the error count is at most the target
    share of the request count, and it fires whenever the error count
    exceeds the request count, whatever the span and the ramp. *)
Theorem errorShift_ratio_bounds (err req errRate span ramp : R) :
  0 < req -> 0 <= errRate <= 1 -> 0 < ramp ->
  (err <= errRate * req -> errorShift err req errRate span ramp = false)
  /\ (req < err -> errorShift err req errRate span ramp = true).
Proof.
  intros Hreq Hrate _.
  pose proof (threshold_bounds span ramp errRate Hrate) as [Hlo Hhi].
  split; intros H.
  - apply errorShift_threshold_false.
    pose proof (ratio_le err req errRate Hreq H). lra.
  - apply errorShift_threshold.
    pose proof (ratio_gt_1 err req Hreq H). lra.
Qed.

(** X2.  For a positive ramp and a target rate of at most 1, the threshold
    only falls as the span grows: once [errorShift] fires on given counts it
    fires on the same counts at every later span. *)
Theorem errorShift_fires_later (err req errRate span1 span2 ramp : R) :
  0 < ramp -> errRate <= 1 -> span1 <= span2 ->
  errorShift err req errRate span1 ramp = true ->
  errorShift err req errRate span2 ramp = true.
Proof.
  intros Hramp Hrate Hspan Hfire.
  apply errorShift_threshold in Hfire. apply errorShift_threshold.
  pose proof (sigmoid_decreasing span1 span2 ramp Hramp Hspan) as Hs.
  unfold threshold in *. nra.
Qed.

End ErrorShiftShape.

(** * The default store *)

Section DefaultStore.
Import StoreFuse.
Context {E : Type}.
Implicit Types (f : Polyfuse E) (w : World E) (d : PolyfuseData).
Local Open Scope R_scope.

(** X3.  On a default store whose pointer refers to an object, [PushData]
    returns no error and a [FetchData] after it hands out an object equal to
    the snapshot pushed; the push writes that one object only: every other
    object, the clock and the collaborators' state are as before. *)
Theorem default_store_round_trip (p : loc) (d0 d : PolyfuseData) w :
  heap w !! p = Some d0 ->
  exists w',
    PushData {| data := Some p |} d w = Some (None, w')
    /\ (let* (q, _) := FetchData {| data := Some p |} in load q) w'
       = Some (d, w')
    /\ (forall l : loc, l <> p -> heap w' !! l = heap w !! l)
    /\ clock w' = clock w /\ ext w' = ext w.
Proof.
  intros H. eexists. split; [apply (default_push_at p d w d0 H) |].
  split; [| split; [| split; reflexivity]].
  - unfold bind. cbn [FetchData DefaultPolyfuseStore_PolifuseStore data ret].
    unfold load. cbn [heap set_heap]. rewrite lookup_insert_eq. reflexivity.
  - intros l Hl. cbn [heap set_heap]. apply lookup_insert_ne. congruence.
Qed.

(** X4.  Over a default store, [GetState] returns normally exactly when the
    store's pointer refers to an object: on a nil pointer (the zero value of
    the store) or a pointer to nothing it panics, whatever the settings. *)
Theorem default_store_GetState_returns f w (q : ptr) :
  store f = mkStore DefaultPolyfuseStore {| data := q |} ->
  (GetState f w = None <-> load q w = None).
Proof.
  intros Hstore.
  assert (Hfetch : fetch (store f) w = Some ((q, None), w))
    by (rewrite Hstore; reflexivity).
  destruct q as [p |].
  - destruct (heap w !! p) as [d |] eqn:Hd.
    + destruct (default_GetState_keeps_state f w p d Hstore Hd) as [b Hrun].
      rewrite Hrun. unfold load. rewrite Hd. split; discriminate.
    + unfold GetState, bind. rewrite Hfetch. unfold Now, load. rewrite Hd.
      split; reflexivity.
  - unfold GetState, bind. rewrite Hfetch. split; reflexivity.
Qed.


End DefaultStore.

(** * Limits that never or always trip, and recovery by decay *)

Section Limits.
Import StoreFuse.
Context {E : Type}.
Implicit Types (f : Polyfuse E) (w : World E) (d : PolyfuseData).
Local Open Scope R_scope.

Lemma Sub_monotone (t1 t2 u : Time) : (t1 <= t2)%Z -> (Sub t1 u <= Sub t2 u)%Z.
Proof.
  intros H. unfold Sub, minDuration, maxDuration.
  repeat match goal with
         | |- context [(?a <? ?b)%Z] => destruct (Z.ltb_spec a b)
         end; lia.
Qed.

Lemma Seconds_monotone (d1 d2 : Duration) :
  (d1 <= d2)%Z -> Seconds d1 <= Seconds d2.
Proof.
  intros H. rewrite !Seconds_exact. apply IZR_le in H.
  unfold Rdiv. apply Rmult_le_compat_r; [lra | exact H].
Qed.

Lemma threshold_pos (span ramp target_rate : R) :
  0 <= target_rate -> 0 < threshold span ramp target_rate.
Proof.
  intros H. unfold threshold.
  destruct (sigmoid_bounds span ramp) as [Hs0 Hs1]. nra.
Qed.

(** X6.  When [max_request], [max_error] and [error_rate] are all zero or
    negative, the decision path allows whatever the counts: the store-based
    [GetState] goes on to push the fetched object, the decision closure of
    src/polyfuse.go goes on to push the decayed snapshot. *)
Theorem disabled_checks_allow :
  (forall f w w1 (p : loc) d,
      fetch (store f) w = Some ((Some p, None), w1) ->
      heap w1 !! p = Some d ->
      (MaxRequest (setting f) <= 0)%Z ->
      (MaxError (setting f) <= 0)%Z ->
      (ErrorRate (setting f) <= 0)%Z ->
      GetState f w = (let* e := push (store f) d in ret (true, e)) w1)
  /\ (forall (g : FuncFuse.Polyfuse E) (data : FuncFuse.PolyfuseData)
             (v : FuncFuse.World E),
         (FuncFuse.MaxRequest (FuncFuse.setting g) <= 0)%Z ->
         (FuncFuse.MaxError (FuncFuse.setting g) <= 0)%Z ->
         (FuncFuse.ErrorRate (FuncFuse.setting g) <= 0)%Z ->
         let elapsed :=
           Seconds (Sub (FuncFuse.clock v) (FuncFuse.Timestamp data)) in
         FuncFuse.defaultPolyfuseGetState g data v =
           (let* e := FuncFuse.call1
                        (FuncFuse.PushDataFunc (FuncFuse.setting g))
                        {| FuncFuse.Request :=
                             decay 1 (FuncFuse.Request data) elapsed
                               (FuncFuse.reqPerSec g);
                           FuncFuse.Error :=
                             decay 0 (FuncFuse.Error data) elapsed
                               (FuncFuse.errPerSec g);
                           FuncFuse.Timestamp := FuncFuse.clock v |} in
            ret (true, e)) v).
Proof.
  split.
  - intros f w w1 p d. apply GetState_disabled_allows.
  - intros g data v Hr He Hs elapsed.
    destruct (FuncFuse_GetState_decides g data v) as [b [Hv Hrun]].
    rewrite Hrun.
    destruct Hv as [[H _] | _ [H _] | _ _ H _ | _ _ _]; try lia. reflexivity.
Qed.

(** X7.  A request ceiling of 1 denies every call whose decayed request
    count is below 2^63, the range of [int]: the decision path floors that
    count at 1, so [max_request = 1] is reached, in both variants, and
    nothing is pushed. *)
Theorem request_ceiling_of_one_denies :
  (forall f w w1 (p : loc) d,
      fetch (store f) w = Some ((Some p, None), w1) ->
      heap w1 !! p = Some d ->
      MaxRequest (setting f) = 1%Z ->
      decay 1 (Request d) (Seconds (Sub (clock w1) (Timestamp d))) (reqPerSec f)
      < IZR (2 ^ 63) ->
      GetState f w = Some ((false, None), w1))
  /\ (forall (g : FuncFuse.Polyfuse E) (data : FuncFuse.PolyfuseData)
             (v : FuncFuse.World E),
         FuncFuse.MaxRequest (FuncFuse.setting g) = 1%Z ->
         decay 1 (FuncFuse.Request data)
           (Seconds (Sub (FuncFuse.clock v) (FuncFuse.Timestamp data)))
           (FuncFuse.reqPerSec g)
         < IZR (2 ^ 63) ->
         FuncFuse.defaultPolyfuseGetState g data v = Some ((false, None), v)).
Proof.
  split.
  - intros f w w1 p d Hfetch Hd Hmax Hfit.
    destruct (StoreFuse_GetState_decides f w w1 p d Hfetch Hd) as [b [Hv Hrun]].
    rewrite Hrun. destruct b; [| reflexivity]. exfalso.
    inversion Hv as [| | | Hnr _ _]. apply Hnr. rewrite Hmax.
    apply trips_int_reaches; [| exact Hfit].
    split; [lia | apply decay_floor].
  - intros g data v Hmax Hfit.
    destruct (FuncFuse_GetState_decides g data v) as [b [Hv Hrun]].
    rewrite Hrun. destruct b; [| reflexivity]. exfalso.
    inversion Hv as [| | | Hnr _ _]. apply Hnr. rewrite Hmax.
    apply trips_int_reaches; [| exact Hfit].
    split; [lia | apply decay_floor].
Qed.

(** X8.  With non-negative rates, the counts the decision path decays to
    never grow as the clock advances: asked at a later instant about the
    same stored snapshot, [GetState] works with a request count and an error
    count that are at most those of the earlier instant. *)
Theorem decayed_counts_fall_with_time f d (now1 now2 : Time) :
  0 <= reqPerSec f -> 0 <= errPerSec f -> (now1 <= now2)%Z ->
  fst (fst (GetState_snap f d now2)) <= fst (fst (GetState_snap f d now1))
  /\ snd (fst (GetState_snap f d now2)) <= snd (fst (GetState_snap f d now1)).
Proof.
  intros Hr He Hnow. rewrite !GetState_snap_decay. cbn [fst snd].
  pose proof (Seconds_monotone _ _ (Sub_monotone now1 now2 (Timestamp d) Hnow))
    as Hsec.
  unfold decay. split; apply Rle_max_compat_l; nra.
Qed.

(** X9.  Recovery by decay.  Take a fuse whose rates are its ceilings over
    its timeframe (as the constructor computes them), a timeframe of at
    least 1 s, [max_request >= 2] and [max_error >= 1], and a stored
    snapshot with at most [max_request + 1] requests and [max_error] errors.
    Once a full timeframe has elapsed since the snapshot's timestamp, the
    request count has decayed to its floor 1 and the error count to 0, and
    [GetState] allows, whatever the error rate configured. *)
Theorem idle_timeframe_recovers f w w1 (p : loc) d :
  fetch (store f) w = Some ((Some p, None), w1) ->
  heap w1 !! p = Some d ->
  (1 <= Timeframe (setting f))%Z ->
  reqPerSec f = IZR (MaxRequest (setting f)) / IZR (Timeframe (setting f)) ->
  errPerSec f = IZR (MaxError (setting f)) / IZR (Timeframe (setting f)) ->
  (2 <= MaxRequest (setting f))%Z ->
  (1 <= MaxError (setting f))%Z ->
  Request d <= IZR (MaxRequest (setting f)) + 1 ->
  Error d <= IZR (MaxError (setting f)) ->
  IZR (Timeframe (setting f)) <= Seconds (Sub (clock w1) (Timestamp d)) ->
  GetState_snap f d (clock w1)
  = (1, 0, Seconds (Sub (clock w1) (Timestamp d)))
  /\ GetState f w = (let* e := push (store f) d in ret (true, e)) w1.
Proof.
  intros Hfetch Hd Htf Hrps Heps Hmr Hme Hreq Herr Hidle.
  set (elapsed := Seconds (Sub (clock w1) (Timestamp d))) in *.
  assert (HT : 1 <= IZR (Timeframe (setting f))) by now apply IZR_le.
  assert (HMR : 2 <= IZR (MaxRequest (setting f))) by now apply IZR_le.
  assert (HME : 1 <= IZR (MaxError (setting f))) by now apply IZR_le.
  assert (Hinv : 0 < / IZR (Timeframe (setting f)))
    by (apply Rinv_0_lt_compat; lra).
  assert (Hone : IZR (Timeframe (setting f)) * / IZR (Timeframe (setting f)) = 1)
    by (apply Rinv_r; lra).
  assert (Hfull : 1 <= elapsed * / IZR (Timeframe (setting f))).
  { rewrite <- Hone. apply Rmult_le_compat_r; [lra | exact Hidle]. }
  assert (Hq : decay 1 (Request d) elapsed (reqPerSec f) = 1).
  { unfold decay. apply Rmax_left. rewrite Hrps. unfold Rdiv.
    assert (IZR (MaxRequest (setting f))
            <= elapsed * (IZR (MaxRequest (setting f))
                          * / IZR (Timeframe (setting f)))) by nra.
    lra. }
  assert (He : decay 0 (Error d) elapsed (errPerSec f) = 0).
  { unfold decay. apply Rmax_left. rewrite Heps. unfold Rdiv.
    assert (IZR (MaxError (setting f))
            <= elapsed * (IZR (MaxError (setting f))
                          * / IZR (Timeframe (setting f)))) by nra.
    lra. }
  split.
  - rewrite GetState_snap_decay. fold elapsed. now rewrite Hq, He.
  - destruct (StoreFuse_GetState_decides f w w1 p d Hfetch Hd) as [b [Hv Hrun]].
    fold elapsed in Hv. rewrite Hq, He in Hv. rewrite Hrun.
    destruct Hv as [Hr | _ Hr | _ _ Hpos Hfire | _ _ _];
      [apply int_reaches_trips in Hr as [_ H]; lra
      | apply int_reaches_trips in Hr as [_ H]; lra | | reflexivity].
    exfalso. apply IZR_lt in Hpos.
    pose proof (threshold_pos elapsed (IZR (Rampframe (setting f)))
                  (IZR (ErrorRate (setting f)) / 10000)) as Hth.
    unfold Rdiv in Hfire at 1. rewrite Rmult_0_l in Hfire.
    assert (0 <= IZR (ErrorRate (setting f)) / 10000) by lra. 
    specialize (Hth H). lra.
Qed.

End Limits.

(** * Sequences of reports, and reports against a failing store *)

Section Reports.
Import StoreFuse.
Context {E : Type}.
Implicit Types (f : Polyfuse E) (w : World E) (d : PolyfuseData).
Local Open Scope R_scope.





(** X11.  A report is not undone by a failed push.  With the default update
    function installed and a store whose push fails without touching the
    state, [PushState] returns the push's error, and the object the fetch
    handed out has nevertheless been rewritten in place with the updated
    counts and timestamp. *)
Theorem failed_push_keeps_the_update f (state : bool) w w1 (p : loc) d (e : error) :
  fetch (store f) w = Some ((Some p, None), w1) ->
  heap w1 !! p = Some d ->
  default_update_installed f ->
  (forall d' w', push (store f) d' w' = Some (Some e, w')) ->
  exists w',
    PushState f state w = Some (Some e, w')
    /\ heap w' !! p
       = Some (report_outcome (reqPerSec f) (errPerSec f) state d (clock w1))
    /\ Timestamp (report_outcome (reqPerSec f) (errPerSec f) state d (clock w1))
       = clock w1.
Proof.
  intros Hfetch Hd Hinst Hpush. eexists. split; [| split].
  - rewrite (PushState_default f state w w1 p d Hfetch Hd Hinst). apply Hpush.
  - cbn [heap set_heap]. apply lookup_insert_eq.
  - reflexivity.
Qed.



End Reports.

(** * What the constructors build *)

Section Constructors.
Import StoreFuse.
Context {E : Type}.
Local Open Scope R_scope.

(** X13.  [NewPolyfuse] of the store-based variant gives the fuse a default
    store over a new object: the object sits where the state had none, holds
    one request, no error and the instant of the construction, and every
    object already there (the snapshot of a fuse built earlier, say), the
    clock and the collaborators' state are untouched. *)
Theorem NewPolyfuse_allocates_its_snapshot (s : PolyfuseSettings E) (w : World E) :
  exists (f : Polyfuse E) (p : loc) (w' : World E),
    NewPolyfuse s w = Some (f, w')
    /\ store f = mkStore DefaultPolyfuseStore {| data := Some p |}
    /\ heap w !! p = None
    /\ heap w' !! p = Some {| Request := 1; Error := 0; Timestamp := clock w |}
    /\ (forall l : loc, l <> p -> heap w' !! l = heap w !! l)
    /\ clock w' = clock w /\ ext w' = ext w.
Proof.
  eexists. exists (fresh (dom (heap w))). eexists.
  split; [apply NewPolyfuse_returns |]. split; [reflexivity |].
  split; [apply not_elem_of_dom, is_fresh |].
  split; [cbn [heap set_heap]; apply lookup_insert_eq |].
  split; [| split; reflexivity].
  intros l Hl. cbn [heap set_heap]. apply lookup_insert_ne. congruence.
Qed.

(** X14.  Whatever limits are passed to [NewPolyfuse] of the store-based
    variant, the fuse it returns reads the zero settings: as long as its
    object exists [GetState] allows and leaves the state as it is, and
    [PushState] finds no update function to call and panics. *)
Theorem constructed_fuse_never_denies (s : PolyfuseSettings E) (w : World E) :
  exists (f : Polyfuse E) (p : loc) (w' : World E),
    NewPolyfuse s w = Some (f, w')
    /\ heap w' !! p = Some {| Request := 1; Error := 0; Timestamp := clock w |}
    /\ (forall (w'' : World E) (d : PolyfuseData),
           heap w'' !! p = Some d ->
           GetState f w'' = Some ((true, None), w''))
    /\ (forall (state : bool) (w'' : World E), PushState f state w'' = None).
Proof.
  eexists. exists (fresh (dom (heap w))). eexists.
  split; [apply NewPolyfuse_returns |].
  split; [cbn [heap set_heap]; apply lookup_insert_eq |].
  split.
  - intros w'' d Hd.
    eapply default_GetState_disabled; [reflexivity | exact Hd | | |]; cbn; lia.
  - intros state w''. reflexivity.
Qed.

(** X15.  [NewPolyfuse] of src/polyfuse.go sets the snapshot of the fuse to
    no request, no error and the instant of the construction and, for a
    timeframe other than 0, the two rates to the ceilings over the
    timeframe; the identity, the limits and the four functions it prepares
    stay in the local copy of the settings, so that on the fuse returned
    [GetID] is empty and [GetState] and [PushState] call a nil fetch
    function and panic. *)
Theorem FuncFuse_NewPolyfuse_builds (s : FuncFuse.PolyfuseSettings E)
        (w : FuncFuse.World E) :
  exists (f : FuncFuse.Polyfuse E) (w' : FuncFuse.World E),
    FuncFuse.NewPolyfuse s w = Some (f, w')
    /\ FuncFuse.fuse_data w'
       = {| FuncFuse.Request := 0; FuncFuse.Error := 0;
            FuncFuse.Timestamp := FuncFuse.clock w |}
    /\ FuncFuse.clock w' = FuncFuse.clock w
    /\ (FuncFuse.Timeframe s <> 0%Z ->
        FuncFuse.reqPerSec f
        = IZR (FuncFuse.MaxRequest s) / IZR (FuncFuse.Timeframe s)
        /\ FuncFuse.errPerSec f
           = IZR (FuncFuse.MaxError s) / IZR (FuncFuse.Timeframe s))
    /\ FuncFuse.GetID f = EmptyString
    /\ (forall w'' : FuncFuse.World E, FuncFuse.GetState f w'' = None)
    /\ (forall (state : bool) (w'' : FuncFuse.World E),
           FuncFuse.PushState f state w'' = None).
Proof.
  eexists. eexists. split; [reflexivity |].
  split; [reflexivity |]. split; [reflexivity |].
  split; [intros _; split; reflexivity |].
  split; [reflexivity |]. split; intros; reflexivity.
Qed.

End Constructors.

(** * The function-field variant with its default functions *)

Section FuncDefaults.
Import FuncFuse.
Context {E : Type}.
Implicit Types (f : Polyfuse E) (w : World E) (data : PolyfuseData).
Local Open Scope R_scope.

Lemma decision_functional (mr me er : Z) (req err : R) (fires : Prop) (b1 b2 : bool) :
  decision mr me er req err fires b1 ->
  decision mr me er req err fires b2 -> b1 = b2.
Proof.
  intros H1 H2. destruct H1, H2; try reflexivity; tauto.
Qed.

Lemma decay_at_floor (lo count elapsed rate : R) :
  decay lo (decay lo count elapsed rate) 0 rate = decay lo count elapsed rate.
Proof.
  rewrite decay_at_zero. apply Rmax_right. apply decay_floor.
Qed.

Lemma FuncFuse_GetState_default f w :
  defaults_installed f ->
  GetState f w = defaultPolyfuseGetState f (fuse_data w) w.
Proof.
  intros [Hfetch [_ [[g [Hg Hext]] _]]].
  unfold GetState, bind. rewrite Hfetch. cbn [call defaultPolyfuseFetchData].
  rewrite Hg. cbn [call1]. apply Hext.
Qed.

(** X16.  With the four default functions installed, [GetState] of
    src/polyfuse.go returns no error; a deny leaves the state as it is, an
    allow stores the decayed counts stamped with the instant of the call;
    and asking again at the same instant gives the same answer and changes
    nothing more. *)
Theorem FuncFuse_GetState_settles f w :
  defaults_installed f ->
  let elapsed := Seconds (Sub (clock w) (Timestamp (fuse_data w))) in
  exists (b : bool) (w' : World E),
    GetState f w = Some ((b, None), w')
    /\ w' = (if b then
               set_fuse_data
                 {| Request := decay 1 (Request (fuse_data w)) elapsed (reqPerSec f);
                    Error := decay 0 (Error (fuse_data w)) elapsed (errPerSec f);
                    Timestamp := clock w |} w
             else w)
    /\ GetState f w' = Some ((b, None), w').
Proof.
  intros Hinst elapsed.
  pose proof Hinst as [_ [Hpush _]].
  rewrite (FuncFuse_GetState_default f w Hinst).
  destruct (FuncFuse_GetState_decides f (fuse_data w) w) as [b [Hv Hrun]].
  fold elapsed in Hv, Hrun.
  destruct b.
  - remember {| Request := decay 1 (Request (fuse_data w)) elapsed (reqPerSec f);
                Error := decay 0 (Error (fuse_data w)) elapsed (errPerSec f);
                Timestamp := clock w |} as d' eqn:Hd'.
    assert (Hfirst : defaultPolyfuseGetState f (fuse_data w) w
                     = Some ((true, None), set_fuse_data d' w)).
    { rewrite Hrun. unfold bind. rewrite Hpush. reflexivity. }
    exists true, (set_fuse_data d' w).
    split; [exact Hfirst | split; [reflexivity |]].
    rewrite (FuncFuse_GetState_default f _ Hinst).
    change (fuse_data (set_fuse_data d' w)) with d'.
    destruct (FuncFuse_GetState_decides f d' (set_fuse_data d' w))
      as [b2 [Hv2 Hrun2]].
    change (clock (set_fuse_data d' w)) with (clock w) in Hv2, Hrun2.
    assert (Hts : Timestamp d' = clock w) by (subst d'; reflexivity).
    assert (Hq : Rmax 1 (Request d') = Request d')
      by (subst d'; apply Rmax_right, decay_floor).
    assert (He : Rmax 0 (Error d') = Error d')
      by (subst d'; apply Rmax_right, decay_floor).
    rewrite Hts, Sub_self, Seconds_0, !decay_at_zero, Hq, He in Hv2, Hrun2.
    assert (Hsame : {| Request := Request d'; Error := Error d';
                       Timestamp := clock w |} = d')
      by (subst d'; reflexivity).
    rewrite Hsame in Hrun2.
    subst d'. cbn [Request Error] in Hv2.
    rewrite (decision_functional _ _ _ _ _ _ _ _ Hv2 Hv) in Hrun2.
    rewrite Hrun2. unfold bind. rewrite Hpush. reflexivity.
  - exists false, w. split; [exact Hrun | split; [reflexivity |]].
    rewrite (FuncFuse_GetState_default f w Hinst). exact Hrun.
Qed.



(** X18.  Errors and nil functions in src/polyfuse.go.  A fetch that fails
    makes [GetState] return [false] with the error and [PushState] return
    it, without calling the decision, update or push function; an update
    function that fails makes [PushState] return its error without calling
    the push function; and a nil fetch function makes both panic. *)
Theorem FuncFuse_errors_propagate :
  (forall f w w1 data (e : error) fetch_fn,
      FetchDataFunc (setting f) = Some fetch_fn ->
      fetch_fn w = Some ((data, Some e), w1) ->
      GetState f w = Some ((false, Some e), w1)
      /\ forall state : bool, PushState f state w = Some (Some e, w1))
  /\ (forall f (state : bool) w w1 w2 data data' (e : error) fetch_fn update_fn,
         FetchDataFunc (setting f) = Some fetch_fn ->
         fetch_fn w = Some ((data, None), w1) ->
         UpdateDataFunc (setting f) = Some update_fn ->
         update_fn state data w1 = Some ((data', Some e), w2) ->
         PushState f state w = Some (Some e, w2))
  /\ (forall f w,
         FetchDataFunc (setting f) = None ->
         GetState f w = None /\ forall state : bool, PushState f state w = None).
Proof.
  split; [| split].
  - intros f w w1 data e fetch_fn Hf Hrun. split; [| intros state].
    + unfold GetState, bind. rewrite Hf. cbn [call]. rewrite Hrun. reflexivity.
    + unfold PushState, bind. rewrite Hf. cbn [call]. rewrite Hrun. reflexivity.
  - intros f state w w1 w2 data data' e fetch_fn update_fn Hf Hrun Hu Hupd.
    unfold PushState, bind. rewrite Hf. cbn [call]. rewrite Hrun.
    rewrite Hu. cbn [call2]. rewrite Hupd. reflexivity.
  - intros f w Hf. split; [| intros state].
    + unfold GetState, bind. rewrite Hf. reflexivity.
    + unfold PushState, bind. rewrite Hf. reflexivity.
Qed.

End FuncDefaults.

(** * The further properties at sample inputs *)

Section MoreAtSamples.
Import StoreFuse Samples.
Local Open Scope R_scope.

Lemma errorShift_ratio_bounds_witness :
  errorShift 1 200 (1 / 100) 3 5 = false
  /\ errorShift 3 2 (1 / 100) 3 5 = true.
Proof.
  split.
  - destruct (errorShift_ratio_bounds 1 200 (1 / 100) 3 5) as [H _];
      [lra | lra | lra |]. apply H. lra.
  - destruct (errorShift_ratio_bounds 3 2 (1 / 100) 3 5) as [_ H];
      [lra | lra | lra |]. apply H. lra.
Defined.

Lemma errorShift_fires_later_witness : errorShift 2 1 (1 / 100) 3 5 = true.
Proof.
  apply (errorShift_fires_later 2 1 (1 / 100) 0 3 5); [lra | lra | lra |].
  apply errorShift_threshold.
  pose proof (threshold_bounds 0 5 (1 / 100)) as [_ Hhi]; lra.
Defined.

Lemma default_store_round_trip_witness :
  exists w',
    PushData {| data := Some cell |} burst (world_of calm 9) = Some (None, w')
    /\ (let* (q, _) := FetchData {| data := Some cell |} in load q) w'
       = Some (burst, w').
Proof.
  destruct (default_store_round_trip cell calm burst (world_of calm 9)
              (world_of_holds calm 9)) as [w' [Hpush [Hfetch _]]].
  exists w'. split; assumption.
Defined.

Lemma default_store_GetState_returns_witness :
  GetState (open_fuse default_store) (empty_world 9) = None.
Proof.
  apply (default_store_GetState_returns (open_fuse default_store)
           (empty_world 9) (Some cell) eq_refl).
  reflexivity.
Defined.


Lemma disabled_checks_allow_witness :
  GetState (open_fuse default_store) (world_of burst 9)
  = (let* e := push default_store burst in ret (true, e)) (world_of burst 9)
  /\ exists d',
      FuncFuse.defaultPolyfuseGetState (func_fuse 0 0 0) func_calm
        (func_world_of func_calm 9)
      = (let* e := FuncFuse.call1 (Some FuncFuse.defaultPolyfusePushData) d' in
         ret (true, e)) (func_world_of func_calm 9).
Proof.
  destruct (@disabled_checks_allow unit) as [Hstore Hfunc].
  split.
  - apply (Hstore (open_fuse default_store) (world_of burst 9)
             (world_of burst 9) cell burst eq_refl (world_of_holds burst 9));
      cbn; lia.
  - eexists.
    apply (Hfunc (func_fuse 0 0 0) func_calm (func_world_of func_calm 9));
      cbn; lia.
Defined.

Lemma request_ceiling_of_one_denies_witness :
  GetState (fuse_of (limits "sample" 5 10 1 0 0) default_store) (world_of calm 7)
  = Some ((false, None), world_of calm 7)
  /\ FuncFuse.defaultPolyfuseGetState (func_fuse 1 0 0) func_calm
       (func_world_of func_calm 7)
     = Some ((false, None), func_world_of func_calm 7).
Proof.
  destruct (@request_ceiling_of_one_denies unit) as [Hstore Hfunc].
  split.
  - apply (Hstore (fuse_of (limits "sample" 5 10 1 0 0) default_store)
             (world_of calm 7) (world_of calm 7) cell calm eq_refl
             (world_of_holds calm 7)).
    + reflexivity.
    + cbn [world_of clock calm Timestamp Request].
      rewrite Sub_self, Seconds_0, decay_at_zero, two63.
      rewrite Rmax_right by lra. lra.
  - apply Hfunc.
    + reflexivity.
    + cbn [func_world_of func_calm FuncFuse.clock FuncFuse.Timestamp
           FuncFuse.Request].
      rewrite Sub_self, Seconds_0, decay_at_zero, two63.
      rewrite Rmax_right by lra. lra.
Defined.

Lemma decayed_counts_fall_with_time_witness :
  fst (fst (GetState_snap (fuse_of (limits "sample" 5 10 20 5 0) default_store)
              calm 9))
  <= fst (fst (GetState_snap (fuse_of (limits "sample" 5 10 20 5 0) default_store)
                 calm 7)).
Proof.
  apply (decayed_counts_fall_with_time
           (fuse_of (limits "sample" 5 10 20 5 0) default_store) calm 7 9);
    [cbn; lra | cbn; lra | lia].
Defined.

Lemma ten_seconds : IZR 10 <= Seconds (Sub 10000000000 0).
Proof.
  rewrite Seconds_exact, Sub_exact by (unfold minDuration, maxDuration; lia).
  replace (10000000000 - 0)%Z with 10000000000%Z by lia. lra.
Defined.

Lemma idle_timeframe_recovers_witness :
  GetState (fuse_of (limits "sample" 5 10 20 5 100) default_store)
    (world_of {| Request := 21; Error := 5; Timestamp := 0 |} 10000000000)
  = (let* e := push default_store
                 {| Request := 21; Error := 5; Timestamp := 0 |} in
     ret (true, e))
      (world_of {| Request := 21; Error := 5; Timestamp := 0 |} 10000000000).
Proof.
  apply (idle_timeframe_recovers
           (fuse_of (limits "sample" 5 10 20 5 100) default_store)
           (world_of {| Request := 21; Error := 5; Timestamp := 0 |} 10000000000)
           (world_of {| Request := 21; Error := 5; Timestamp := 0 |} 10000000000)
           cell {| Request := 21; Error := 5; Timestamp := 0 |} eq_refl
           (world_of_holds _ _)).
  - cbn. lia.
  - reflexivity.
  - reflexivity.
  - cbn. lia.
  - cbn. lia.
  - cbn. lra.
  - cbn. lra.
  - exact ten_seconds.
Defined.


Lemma failed_push_keeps_the_update_witness :
  exists w' d',
    PushState (install_default_update (open_fuse read_only_store)) false
      (world_of calm 9)
    = Some (Some "read-only store"%string, w')
    /\ heap w' !! cell = Some d'
    /\ Timestamp d' = 9%Z.
Proof.
  destruct (failed_push_keeps_the_update
              (install_default_update (open_fuse read_only_store)) false
              (world_of calm 9) (world_of calm 9) cell calm
              "read-only store"%string eq_refl (world_of_holds calm 9)
              (install_default_update_installed (open_fuse read_only_store))
              (fun _ _ => eq_refl))
    as [w' [Hrun [Hheap Hts]]].
  exists w'. eexists. split; [exact Hrun | split; [exact Hheap | exact Hts]].
Defined.


Lemma constructed_fuse_never_denies_witness :
  exists f w',
    NewPolyfuse (limits "payments" 5 10 1 1 100) (empty_world 0) = Some (f, w')
    /\ GetState f w' = Some ((true, None), w').
Proof.
  destruct (constructed_fuse_never_denies (limits "payments" 5 10 1 1 100)
              (empty_world 0)) as [f [p [w' [Hnew [Hheap [Hget _]]]]]].
  exists f, w'. split; [exact Hnew |]. exact (Hget w' _ Hheap).
Defined.

Lemma FuncFuse_NewPolyfuse_builds_witness :
  exists f w',
    FuncFuse.NewPolyfuse (func_limits 20 5 100) (func_world_of func_calm 9)
    = Some (f, w')
    /\ FuncFuse.reqPerSec f = IZR 20 / IZR 10
    /\ FuncFuse.errPerSec f = IZR 5 / IZR 10
    /\ FuncFuse.GetID f = EmptyString.
Proof.
  destruct (FuncFuse_NewPolyfuse_builds (func_limits 20 5 100)
              (func_world_of func_calm 9))
    as [f [w' [Hnew [_ [_ [Hrates [Hid _]]]]]]].
  exists f, w'. split; [exact Hnew |].
  destruct Hrates as [Hq He]; [cbn; lia |].
  split; [exact Hq |]. split; [exact He | exact Hid].
Defined.

Lemma func_fuse_defaults_installed (max_request max_error error_rate : Z) :
  defaults_installed (func_fuse max_request max_error error_rate).
Proof.
  split; [reflexivity |]. split; [reflexivity |]. split.
  - eexists. split; [reflexivity |]. intros data w. reflexivity.
  - eexists. split; [reflexivity |]. intros state data w. reflexivity.
Defined.

Lemma FuncFuse_GetState_settles_witness :
  exists (b : bool) w',
    FuncFuse.GetState (func_fuse 20 5 100) (func_world_of func_calm 9)
    = Some ((b, None), w')
    /\ FuncFuse.GetState (func_fuse 20 5 100) w' = Some ((b, None), w').
Proof.
  destruct (FuncFuse_GetState_settles (func_fuse 20 5 100)
              (func_world_of func_calm 9)
              (func_fuse_defaults_installed 20 5 100))
    as [b [w' [Hrun [_ Hagain]]]].
  exists b, w'. split; assumption.
Defined.


Lemma FuncFuse_errors_propagate_witness :
  FuncFuse.GetState (func_custom (Some failing_fetch) None)
    (func_world_of func_calm 9)
  = Some ((false, Some "store unavailable"%string), func_world_of func_calm 9)
  /\ FuncFuse.PushState
       (func_custom (Some FuncFuse.defaultPolyfuseFetchData)
          (Some refusing_update))
       true (func_world_of func_calm 9)
     = Some (Some "update refused"%string, func_world_of func_calm 9)
  /\ FuncFuse.GetState (func_custom None None) (func_world_of func_calm 9)
     = None.
Proof.
  destruct (@FuncFuse_errors_propagate unit) as [Hfetch [Hupdate Hnil]].
  split; [| split].
  - apply (Hfetch (func_custom (Some failing_fetch) None)
             (func_world_of func_calm 9) (func_world_of func_calm 9)
             func_calm "store unavailable"%string failing_fetch);
      reflexivity.
  - apply (Hupdate
             (func_custom (Some FuncFuse.defaultPolyfuseFetchData)
                (Some refusing_update))
             true (func_world_of func_calm 9) (func_world_of func_calm 9)
             (func_world_of func_calm 9) func_calm func_calm
             "update refused"%string FuncFuse.defaultPolyfuseFetchData
             refusing_update);
      reflexivity.
  - apply (Hnil (func_custom None None) (func_world_of func_calm 9)).
    reflexivity.
Defined.

End MoreAtSamples.

(** * The two ends of the ramp *)

Section RampEnds.
Import StoreFuse.
Local Open Scope R_scope.

Lemma exp_6_lower : 64 <= exp 6.
Proof.
  assert (H1 : 2 <= exp 1) by (pose proof (exp_ineq1_le 1); lra).
  assert (H2 : 4 <= exp 2).
  { replace 2 with (1 + 1) by lra. rewrite exp_plus. nra. }
  assert (H4 : 16 <= exp 4).
  { replace 4 with (2 + 2) by lra. rewrite exp_plus. nra. }
  replace 6 with (4 + 2) by lra. rewrite exp_plus. nra.
Qed.

Lemma sigmoid_at_start (span ramp : R) :
  0 < ramp -> span <= 0 -> 64 / 65 <= sigmoid span ramp.
Proof.
  intros Hramp Hspan.
  apply Rle_trans with (sigmoid 0 ramp);
    [| now apply sigmoid_decreasing].
  unfold sigmoid.
  replace (0 * 12 / ramp - 6) with (Ropp 6) by (unfold Rdiv; lra).
  rewrite exp_Ropp. pose proof exp_6_lower as H6.
  assert (Hinv : / exp 6 <= / 64) by (apply Rinv_le_contravar; lra).
  assert (Hpos : 0 < / exp 6) by (apply Rinv_0_lt_compat; lra).
  unfold Rdiv. rewrite Rmult_1_l.
  replace (64 * / 65) with (/ (1 + / 64)) by lra.
  apply Rinv_le_contravar; lra.
Qed.

Lemma sigmoid_at_end (span ramp : R) :
  0 < ramp -> ramp <= span -> sigmoid span ramp <= 1 / 65.
Proof.
  intros Hramp Hspan.
  apply Rle_trans with (sigmoid ramp ramp);
    [now apply sigmoid_decreasing |].
  unfold sigmoid.
  replace (ramp * 12 / ramp - 6) with 6 by (field; lra).
  pose proof exp_6_lower as H6.
  unfold Rdiv. rewrite !Rmult_1_l. apply Rinv_le_contravar; lra.
Qed.

(** X19.  The dampening at the two ends of the ramp, for a positive request
    count, a positive ramp and a target rate within [0, 1].  At span 0 (or
    before) [errorShift] tolerates every error count up to 64/65 of the
    request count, whatever the target; once the span has reached the ramp
    it fires on every error count above the target share plus 1/65 of the
    rest. *)
Theorem errorShift_ramp_ends (err req errRate span ramp : R) :
  0 < req -> 0 <= errRate <= 1 -> 0 < ramp ->
  (span <= 0 -> err <= 64 / 65 * req ->
   errorShift err req errRate span ramp = false)
  /\ (ramp <= span -> (errRate + (1 - errRate) / 65) * req < err ->
      errorShift err req errRate span ramp = true).
Proof.
  intros Hreq Hrate Hramp.
  assert (Hinv : 0 < / req) by now apply Rinv_0_lt_compat.
  assert (Hone : req * / req = 1) by (apply Rinv_r; lra).
  split; intros Hspan Herr.
  - apply errorShift_threshold_false.
    pose proof (sigmoid_at_start span ramp Hramp Hspan) as Hs.
    destruct (sigmoid_bounds span ramp) as [_ Hs1].
    pose proof (ratio_le err req (64 / 65) Hreq Herr) as Hratio.
    unfold threshold. nra.
  - apply errorShift_threshold.
    pose proof (sigmoid_at_end span ramp Hramp Hspan) as Hs.
    destruct (sigmoid_bounds span ramp) as [Hs0 _].
    assert (Hratio : errRate + (1 - errRate) / 65 < err / req).
    { apply (Rmult_lt_reg_r req); [exact Hreq |].
      unfold Rdiv at 2. rewrite Rmult_assoc, Rinv_l by lra. lra. }
    unfold threshold. nra.
Qed.

End RampEnds.

(** * A first failure, in the two variants *)

Section FirstFailure.
Import Samples.
Context {E : Type}.
Local Open Scope R_scope.



(** X22.  With the error-rate check disabled the two variants decide alike:
    for the same ceilings, the same rates and the same stored counts and
    timestamp, asked at the same instant, the store-based [GetState] and the
    decision closure of src/polyfuse.go return the same boolean. *)
Theorem variants_agree_without_rate_check
        (f : StoreFuse.Polyfuse E) (w w1 : StoreFuse.World E) (p : positive)
        (d : StoreFuse.PolyfuseData)
        (g : FuncFuse.Polyfuse E) (data : FuncFuse.PolyfuseData)
        (v : FuncFuse.World E) :
  StoreFuse.fetch (StoreFuse.store f) w = Some ((Some p, None), w1) ->
  StoreFuse.heap w1 !! p = Some d ->
  (StoreFuse.ErrorRate (StoreFuse.setting f) <= 0)%Z ->
  (FuncFuse.ErrorRate (FuncFuse.setting g) <= 0)%Z ->
  FuncFuse.MaxRequest (FuncFuse.setting g)
  = StoreFuse.MaxRequest (StoreFuse.setting f) ->
  FuncFuse.MaxError (FuncFuse.setting g)
  = StoreFuse.MaxError (StoreFuse.setting f) ->
  FuncFuse.reqPerSec g = StoreFuse.reqPerSec f ->
  FuncFuse.errPerSec g = StoreFuse.errPerSec f ->
  FuncFuse.Request data = StoreFuse.Request d ->
  FuncFuse.Error data = StoreFuse.Error d ->
  FuncFuse.Timestamp data = StoreFuse.Timestamp d ->
  FuncFuse.clock v = StoreFuse.clock w1 ->
  exists (b : bool) (pushed : FuncFuse.PolyfuseData),
    StoreFuse.GetState f w =
      (if b then
         (let* e := StoreFuse.push (StoreFuse.store f) d in ret (true, e)) w1
       else Some ((false, None), w1))
    /\ FuncFuse.defaultPolyfuseGetState g data v =
         (if b then
            (let* e := FuncFuse.call1
                         (FuncFuse.PushDataFunc (FuncFuse.setting g)) pushed in
             ret (true, e)) v
          else Some ((false, None), v)).
Proof.
  intros Hfetch Hd Hsr Hgr Hmr Hme Hrps Heps Hq He Hts Hclock.
  destruct (StoreFuse_GetState_decides f w w1 p d Hfetch Hd) as [b [Hv Hrun]].
  destruct (FuncFuse_GetState_decides g data v) as [b' [Hv' Hrun']].
  rewrite Hmr, Hme, Hrps, Heps, Hq, He, Hts, Hclock in Hv'.
  assert (Hb : b' = b).
  { destruct Hv as [Hr | Hnr Her | Hnr Hner Hpos _ | Hnr Hner _];
      destruct Hv' as [Hr' | Hnr' Her' | Hnr' Hner' Hpos' _ | Hnr' Hner' _];
      try reflexivity; try tauto; lia. }
  subst b'. exists b. eexists. split; [exact Hrun | exact Hrun'].
Qed.

End FirstFailure.

(** * The last properties at sample inputs *)

Section LastAtSamples.
Import StoreFuse Samples.
Local Open Scope R_scope.

Lemma errorShift_ramp_ends_witness :
  errorShift 9 10 (1 / 100) 0 5 = false
  /\ errorShift 1 10 (1 / 100) 5 5 = true.
Proof.
  split.
  - destruct (errorShift_ramp_ends 9 10 (1 / 100) 0 5) as [H _];
      [lra | lra | lra |]. apply H; lra.
  - destruct (errorShift_ramp_ends 1 10 (1 / 100) 5 5) as [_ H];
      [lra | lra | lra |]. apply H; lra.
Defined.



Lemma variants_agree_without_rate_check_witness :
  exists (b : bool) pushed,
    GetState (fuse_of (limits "sample" 5 10 20 5 0) default_store)
      (world_of calm 9)
    = (if b then
         (let* e := push default_store calm in ret (true, e)) (world_of calm 9)
       else Some ((false, None), world_of calm 9))
    /\ FuncFuse.defaultPolyfuseGetState (func_fuse 20 5 0) func_calm
         (func_world_of func_calm 9)
       = (if b then
            (let* e := FuncFuse.call1 (Some FuncFuse.defaultPolyfusePushData)
                         pushed in
             ret (true, e)) (func_world_of func_calm 9)
          else Some ((false, None), func_world_of func_calm 9)).
Proof.
  apply (variants_agree_without_rate_check
           (fuse_of (limits "sample" 5 10 20 5 0) default_store)
           (world_of calm 9) (world_of calm 9) cell calm
           (func_fuse 20 5 0) func_calm (func_world_of func_calm 9)
           eq_refl (world_of_holds calm 9));
    try reflexivity; cbn; lia.
Defined.

End LastAtSamples.
